(** * Solar power prediction core: [core/ml_model.py] and its caller in
      [core/api_views.py]

    A shallow embedding of [SolarPowerMLModel] (synthetic data generation,
    training, the model store, the predictor and the grid-search optimiser)
    together with the timeframe scaling the API view applies to a
    prediction.

    Python floats are IEEE 754 binary64 values: they are modelled by Rocq's
    primitive floats, so that [nan], the infinities and division by zero
    behave as they do in the program.  Functions of numpy and scikit-learn
    that the program calls but does not define are fields of the interfaces
    [Numpy] and [Sklearn]; the instances [ref_numpy] and [ref_sklearn] make
    every definition runnable. *)

From Stdlib Require Import ZArith List Bool Lia.
From Stdlib Require Import Floats Uint63.
From stdpp Require Import base option list gmap strings.

Set Warnings "-inexact-float".
Local Open Scope Z_scope.

(** ** Python floats *)

Module PyFloat.

Local Open Scope float_scope.

(** Python's two-argument builtin [max(a, b)]: it keeps the first argument
    unless the second compares strictly greater. *)
Definition py_max (a b : float) : float := if a <? b then b else a.

(** Python's two-argument builtin [min(a, b)]: it keeps the first argument
    unless the second compares strictly smaller. *)
Definition py_min (a b : float) : float := if b <? a then b else a.

(** An [int] that meets a float, as the grid angles do in the features. *)
Definition float_of_Z (z : Z) : float := of_uint63 (Uint63.of_Z z).

(** [lo <= x <= hi] *)
Definition in_closed (lo hi x : float) : bool := (lo <=? x) && (x <=? hi).

End PyFloat.
Export PyFloat.

(** ** Exceptions and the state-and-exception monad

    A Python method runs against the object's mutable state and either
    returns or raises; what it assigned before raising stays assigned. *)

Inductive exn :=
| FileNotFoundError
| NotFittedError
| LoadError (msg : string).

Inductive result (A : Type) :=
| Ok (a : A)
| Raise (e : exn).
Arguments Ok {A} a.
Arguments Raise {A} e.

Definition M (S A : Type) : Type := S -> result A * S.

#[global] Instance M_ret {S} : MRet (M S) := fun A a s => (Ok a, s).

#[global] Instance M_bind {S} : MBind (M S) := fun A B f m s =>
  match m s with
  | (Ok a, s') => f a s'
  | (Raise e, s') => (Raise e, s')
  end.

Definition raise {S A} (e : exn) : M S A := fun s => (Raise e, s).

(** [try: body except e: handler e] *)
Definition try_except {S A} (body : M S A) (handler : exn -> M S A) : M S A :=
  fun s =>
    match body s with
    | (Ok a, s') => (Ok a, s')
    | (Raise e, s') => handler e s'
    end.

Definition gets {S A} (f : S -> A) : M S A := fun s => (Ok (f s), s).
Definition modify {S} (f : S -> S) : M S unit := fun s => (Ok tt, f s).

Definition lift_result {S A} (r : result A) : M S A := fun s => (r, s).

(** [for x in xs: acc = body(x, acc)] *)
Fixpoint for_each {S A B} (xs : list A) (body : A -> B -> M S B) (acc : B)
  : M S B :=
  match xs with
  | [] => mret acc
  | x :: xs' => acc' ← body x acc; for_each xs' body acc'
  end.

(** [[f(x) for x in xs]] for an [f] with effects *)
Fixpoint map_M {S A B} (f : A -> M S B) (xs : list A) : M S (list B) :=
  match xs with
  | [] => mret []
  | x :: xs' => y ← f x; ys ← map_M f xs'; mret (y :: ys)
  end.

(** [range(start, stop, step)] for a positive [step] *)
Definition py_range (start stop step : Z) : list Z :=
  map (fun i => start + step * Z.of_nat i)
      (seq 0 (Z.to_nat ((stop - start + step - 1) / step))).

(** ** What the program takes from numpy *)

Class Numpy := {
  (** state of the global generator behind [np.random] *)
  rng : Type;
  (** [np.random.seed(s)] puts the global generator in a state that depends
      on [s] alone *)
  np_random_seed : Z -> rng;
  (** [np.random.uniform(low, high)] *)
  np_random_uniform : float -> float -> rng -> float * rng;
  (** [np.random.normal(loc, scale)]; numpy rejects a negative [scale], the
      program calls it with a tenth of [base_power] and that rejection is
      left out of the model *)
  np_random_normal : float -> float -> rng -> float * rng;
  np_cos : float -> float;
  np_radians : float -> float;
  np_std : list float -> float;
  np_mean : list float -> float
}.

(** numpy's contract for [uniform]: samples lie between [low] and [high]
    (numpy documents the half-open interval and notes that rounding may
    return [high] itself). *)
Definition uniform_contract `{Numpy} : Prop :=
  forall (lo hi : float) (g : rng),
    (lo <=? hi)%float = true ->
    in_closed lo hi (fst (np_random_uniform lo hi g)) = true.

(** ** What the program takes from scikit-learn *)

(** One row of the feature matrix. *)
Definition row := list float.

(** A fitted tree of the forest. *)
Definition Tree := row -> float.

(** A regressor as the predictor uses it: a [predict] method, which raises
    while the regressor is not fitted, and the attribute [estimators_], which
    a forest has once it is fitted. *)
Record Regressor := {
  predict : row -> result float;
  estimators_ : option (list Tree)
}.

(** A [StandardScaler]: [None] until it is fitted, then its transform. *)
Definition Scaler := option (row -> row).

Class Sklearn := {
  (** [train_test_split(X, y, test_size=0.2, random_state=42)] *)
  train_test_split :
    list row -> list float -> list row * list row * list float * list float;
  (** the transform a [StandardScaler] learns from the training rows *)
  scaler_fit : list row -> row -> row;
  (** the trees [RandomForestRegressor(n_estimators=100, random_state=42)]
      grows *)
  forest_fit : list row -> list float -> list Tree;
  (** the forest's prediction from its trees *)
  forest_predict : list Tree -> row -> float;
  mean_absolute_error : list float -> list float -> float;
  r2_score : list float -> list float -> float
}.

(** [RandomForestRegressor(...)] before [fit] *)
Definition RandomForestRegressor : Regressor :=
  {| predict := fun _ => Raise NotFittedError; estimators_ := None |}.

(** the regressor after [fit] has grown [trees] *)
Definition fitted_forest `{Sklearn} (trees : list Tree) : Regressor :=
  {| predict := fun x => Ok (forest_predict trees x);
     estimators_ := Some trees |}.

(** [StandardScaler()] before [fit] *)
Definition StandardScaler : Scaler := None.

(** ** Persisted artifacts *)

(** What [joblib.load] finds at a path. *)
Inductive file (A : Type) :=
| Absent
| Corrupt (msg : string)
| Stored (a : A).
Arguments Absent {A}.
Arguments Corrupt {A} msg.
Arguments Stored {A} a.

Definition joblib_load {A} (f : file A) : result A :=
  match f with
  | Absent => Raise FileNotFoundError
  | Corrupt msg => Raise (LoadError msg)
  | Stored a => Ok a
  end.

(** ** The records of a training run *)

Record TrainingExample := {
  latitude : float;
  longitude : float;
  surface_area : float;
  tilt_angle : float;
  azimuth_angle : float;
  panel_efficiency : float;
  solar_irradiance : float;
  temperature : float;
  humidity : float;
  wind_speed : float;
  cloud_cover : float;
  power_output : float
}.

(** What the module's [logger] is told. *)
Inductive log_record :=
| info_training_started
| info_training_completed (mae r2 : float)
| warning_model_not_found
| error_loading_model (e : exn).

Record metrics := { mae : float; r2_score_ : float }.

(** ** The optimiser's sweep, over any predictor

    [find_optimal_configuration] calls [self.predict_power_output]; the sweep
    is written once over the predictor it calls, so that it can be run
    against a stub as well. *)

Definition tilt_range : list Z := py_range 0 61 5.
Definition azimuth_range : list Z := py_range 0 361 15.

Definition find_optimal_with {S}
    (predictor : Z -> Z -> M S (float * float)) : M S (Z * Z * float) :=
  let best_output := 0%float in
  let best_tilt := 0 in
  let best_azimuth := 0 in
  for_each tilt_range (fun tilt best =>
    for_each azimuth_range (fun azimuth best =>
      let '(best_tilt, best_azimuth, best_output) := best in
      r ← predictor tilt azimuth;
      let output := fst r in
      if (best_output <? output)%float
      then mret (tilt, azimuth, output)
      else mret (best_tilt, best_azimuth, best_output)) best)
    (best_tilt, best_azimuth, best_output).

(** ** [SolarPowerMLModel] *)

Section SolarPowerMLModel.

Context `{NP : Numpy} `{SK : Sklearn}.

Local Open Scope float_scope.

(** The object's attributes [model] and [scaler], the two files at
    [model_path] and [scaler_path], the global generator of [np.random] and
    what has been logged.  The directory of the two files exists and can be
    written, so that [joblib.dump] succeeds. *)
Record state := {
  model : Regressor;
  scaler : Scaler;
  model_file : file Regressor;
  scaler_file : file Scaler;
  np_random : rng;
  log : list log_record
}.

Definition set_model (m : Regressor) (st : state) : state :=
  {| model := m; scaler := scaler st; model_file := model_file st;
     scaler_file := scaler_file st; np_random := np_random st;
     log := log st |}.

Definition set_scaler (s : Scaler) (st : state) : state :=
  {| model := model st; scaler := s; model_file := model_file st;
     scaler_file := scaler_file st; np_random := np_random st;
     log := log st |}.

Definition set_model_file (f : file Regressor) (st : state) : state :=
  {| model := model st; scaler := scaler st; model_file := f;
     scaler_file := scaler_file st; np_random := np_random st;
     log := log st |}.

Definition set_scaler_file (f : file Scaler) (st : state) : state :=
  {| model := model st; scaler := scaler st; model_file := model_file st;
     scaler_file := f; np_random := np_random st; log := log st |}.

Definition set_np_random (g : rng) (st : state) : state :=
  {| model := model st; scaler := scaler st; model_file := model_file st;
     scaler_file := scaler_file st; np_random := g; log := log st |}.

Definition logger (r : log_record) : M state unit :=
  modify (fun st =>
    {| model := model st; scaler := scaler st; model_file := model_file st;
       scaler_file := scaler_file st; np_random := np_random st;
       log := log st ++ [r] |}).

(** [__init__]: an unfitted forest and an unfitted scaler. *)
Definition init (mf : file Regressor) (sf : file Scaler) (g : rng) : state :=
  {| model := RandomForestRegressor; scaler := StandardScaler;
     model_file := mf; scaler_file := sf; np_random := g; log := [] |}.

(** *** [generate_synthetic_data] *)

Definition uniform (lo hi : float) : M state float := fun st =>
  let '(x, g) := np_random_uniform lo hi (np_random st) in
  (Ok x, set_np_random g st).

Definition normal (loc scale : float) : M state float := fun st =>
  let '(x, g) := np_random_normal loc scale (np_random st) in
  (Ok x, set_np_random g st).

(** The empirical formula of the label, before the noise. *)
Definition base_power_of (surface_area solar_irradiance temperature
    tilt_angle latitude cloud_cover panel_efficiency : float) : float :=
  let irradiance_factor := solar_irradiance / 5 in
  let temp_factor := 1 - (PrimFloat.abs (temperature - 25) / 100) in
  let tilt_factor :=
    np_cos (np_radians (PrimFloat.abs (tilt_angle - PrimFloat.abs latitude))) in
  let cloud_factor := (100 - cloud_cover) / 100 in
  let efficiency_factor := panel_efficiency in
  surface_area * irradiance_factor * temp_factor *
    tilt_factor * cloud_factor * efficiency_factor.

(** The body of the loop: one example. *)
Definition generate_example : M state TrainingExample :=
  latitude ← uniform (-60) 60;
  longitude ← uniform (-180) 180;
  surface_area ← uniform 10 100;
  tilt_angle ← uniform 0 60;
  azimuth_angle ← uniform 0 360;
  panel_efficiency ← uniform 0.15 0.25;
  solar_irradiance ← uniform 2 8;
  temperature ← uniform (-10) 45;
  humidity ← uniform 20 90;
  wind_speed ← uniform 0 20;
  cloud_cover ← uniform 0 100;
  let base_power :=
    base_power_of surface_area solar_irradiance temperature tilt_angle
                  latitude cloud_cover panel_efficiency in
  noise ← normal 0 (base_power * 0.1);
  let power_output := py_max 0 (base_power + noise) in
  mret {| latitude := latitude; longitude := longitude;
          surface_area := surface_area; tilt_angle := tilt_angle;
          azimuth_angle := azimuth_angle;
          panel_efficiency := panel_efficiency;
          solar_irradiance := solar_irradiance;
          temperature := temperature; humidity := humidity;
          wind_speed := wind_speed; cloud_cover := cloud_cover;
          power_output := power_output |}.

(** [for _ in range(n): data.append(...)] *)
Fixpoint generate_loop (n : nat) (data : list TrainingExample)
  : M state (list TrainingExample) :=
  match n with
  | O => mret data
  | S n' => ex ← generate_example; generate_loop n' (data ++ [ex])
  end.

Definition generate_synthetic_data (n_samples : nat)
  : M state (list TrainingExample) :=
  modify (set_np_random (np_random_seed 42));;
  generate_loop n_samples [].

(** the default of [n_samples] *)
Definition default_n_samples : nat := 5000.

(** *** [prepare_features] *)

Definition feature_row (ex : TrainingExample) : row :=
  [latitude ex; longitude ex; surface_area ex; tilt_angle ex;
   azimuth_angle ex; panel_efficiency ex; solar_irradiance ex;
   temperature ex; humidity ex; wind_speed ex; cloud_cover ex].

Definition prepare_features (data : list TrainingExample)
  : list row * list float :=
  (map feature_row data, map power_output data).

(** *** [train_model] *)

(** [self.scaler.transform(X)] *)
Definition scaler_transform (X : list row) : M state (list row) :=
  s ← gets scaler;
  match s with
  | Some f => mret (map f X)
  | None => raise NotFittedError
  end.

(** [self.model.predict(X)] *)
Definition model_predict (X : list row) : M state (list float) :=
  m ← gets model;
  map_M (fun x => lift_result (predict m x)) X.

Definition train_model : M state metrics :=
  logger info_training_started;;
  df ← generate_synthetic_data default_n_samples;
  let '(X, y) := prepare_features df in
  let '(X_train, X_test, y_train, y_test) := train_test_split X y in
  (* self.scaler.fit_transform(X_train) *)
  modify (set_scaler (Some (scaler_fit X_train)));;
  X_train_scaled ← scaler_transform X_train;
  X_test_scaled ← scaler_transform X_test;
  (* self.model.fit(X_train_scaled, y_train) *)
  modify (set_model (fitted_forest (forest_fit X_train_scaled y_train)));;
  y_pred ← model_predict X_test_scaled;
  let mae := mean_absolute_error y_test y_pred in
  let r2 := r2_score y_test y_pred in
  logger (info_training_completed mae r2);;
  m ← gets model; modify (set_model_file (Stored m));;
  s ← gets scaler; modify (set_scaler_file (Stored s));;
  mret {| mae := mae; r2_score_ := r2 |}.

(** *** [load_model] *)

Definition load_model : M state bool :=
  try_except
    (m ← (f ← gets model_file; lift_result (joblib_load f));
     modify (set_model m);;
     s ← (f ← gets scaler_file; lift_result (joblib_load f));
     modify (set_scaler s);;
     mret true)
    (fun e =>
       match e with
       | FileNotFoundError =>
           logger warning_model_not_found;;
           train_model;;
           mret true
       | e =>
           logger (error_loading_model e);;
           mret false
       end).

(** *** [predict_power_output] *)

(** [check_is_fitted(self.scaler)] *)
Definition check_is_fitted : M state unit :=
  s ← gets scaler;
  match s with
  | Some _ => mret tt
  | None => raise NotFittedError
  end.

(** [d.get(key, default)] *)
Definition dict_get (d : gmap string float) (key : string) (dflt : float)
  : float :=
  match d !! key with
  | Some v => v
  | None => dflt
  end.

(** The one-row frame the predictor builds. *)
Definition input_data (latitude longitude surface_area tilt_angle
    azimuth_angle panel_efficiency : float)
    (weather_data : gmap string float) : row :=
  [latitude; longitude; surface_area; tilt_angle; azimuth_angle;
   panel_efficiency;
   dict_get weather_data "solar_irradiance" 5.0;
   dict_get weather_data "temperature" 25.0;
   dict_get weather_data "humidity" 50.0;
   dict_get weather_data "wind_speed" 5.0;
   dict_get weather_data "cloud_cover" 30.0].

(** The confidence before it is clamped. *)
Definition raw_confidence (m : Regressor) (input_scaled : row) : float :=
  match estimators_ m with
  | Some trees =>
      let predictions := map (fun tree => tree input_scaled) trees in
      1 - (np_std predictions / np_mean predictions)
  | None => 0.8
  end.

(** What follows the fitted-state check.  The frame has one row, and
    [[0]] takes the prediction for that row. *)
Definition predict_body (latitude longitude surface_area tilt_angle
    azimuth_angle panel_efficiency : float)
    (weather_data : gmap string float) : M state (float * float) :=
  let input := input_data latitude longitude surface_area tilt_angle
                          azimuth_angle panel_efficiency weather_data in
  input_scaled ← (X ← scaler_transform [input];
                  match X with x :: _ => mret x | [] => mret [] end);
  prediction ← (m ← gets model; lift_result (predict m input_scaled));
  m ← gets model;
  let confidence := raw_confidence m input_scaled in
  mret (py_max 0 prediction, py_min 1.0 (py_max 0.0 confidence)).

Definition predict_power_output (latitude longitude surface_area tilt_angle
    azimuth_angle panel_efficiency : float)
    (weather_data : gmap string float) : M state (float * float) :=
  try_except check_is_fitted (fun _ => load_model;; mret tt);;
  predict_body latitude longitude surface_area tilt_angle azimuth_angle
               panel_efficiency weather_data.

(** *** [find_optimal_configuration] *)

Definition find_optimal_configuration (latitude longitude surface_area
    panel_efficiency : float) (weather_data : gmap string float)
  : M state (Z * Z * float) :=
  find_optimal_with (fun tilt azimuth =>
    predict_power_output latitude longitude surface_area
      (float_of_Z tilt) (float_of_Z azimuth) panel_efficiency weather_data).

(** ** [PredictPowerView.post], from the prediction on

    The serializer, the location and panel rows and the weather service are
    collaborators outside the core: the view is modelled from the validated
    data and the weather reading it obtained. *)

Inductive timeframe := daily | weekly | monthly.

Record PredictionInput := {
  in_latitude : float;
  in_longitude : float;
  in_surface_area : float;
  in_tilt_angle : float;
  in_azimuth_angle : float;
  in_panel_efficiency : float;
  in_timeframe : timeframe
}.

(** The row of [SolarPrediction] the view creates. *)
Record SolarPrediction := {
  sp_timeframe : timeframe;
  predicted_output : float;
  confidence_score : float;
  sp_weather_data : gmap string float
}.

Inductive response :=
| HTTP_201_CREATED (prediction : SolarPrediction)
| HTTP_500_INTERNAL_SERVER_ERROR.

(** [if timeframe == 'weekly': predicted_output *= 7
     elif timeframe == 'monthly': predicted_output *= 30] *)
Definition adjust_output (tf : timeframe) (predicted_output : float) : float :=
  match tf with
  | weekly => predicted_output * 7
  | monthly => predicted_output * 30
  | daily => predicted_output
  end.

Definition PredictPowerView_post (data : PredictionInput)
    (weather_data : gmap string float) : state -> response * state :=
  fun st =>
    match predict_power_output (in_latitude data) (in_longitude data)
            (in_surface_area data) (in_tilt_angle data)
            (in_azimuth_angle data) (in_panel_efficiency data)
            weather_data st with
    | (Ok (predicted_output, confidence), st') =>
        let timeframe := in_timeframe data in
        let predicted_output := adjust_output timeframe predicted_output in
        (HTTP_201_CREATED
           {| sp_timeframe := timeframe;
              predicted_output := predicted_output;
              confidence_score := confidence;
              sp_weather_data := weather_data |}, st')
    | (Raise _, st') => (HTTP_500_INTERNAL_SERVER_ERROR, st')
    end.

End SolarPowerMLModel.

(** ** Reference instances of the two interfaces

    Small executable stand-ins for numpy and scikit-learn: a linear
    congruential generator, a truncated cosine series, population mean and
    standard deviation, column-wise standardisation and a two-tree forest.
    They serve to run the definitions on concrete inputs. *)

Module Ref.

Local Open Scope float_scope.

Definition next (g : Z) : Z := ((g * 1103515245 + 12345) mod 2147483648)%Z.

(** a value in [[0, 1)] *)
Definition unit_sample (g : Z) : float :=
  float_of_Z (g mod 1024)%Z / 1024.

Definition uniform (lo hi : float) (g : Z) : float * Z :=
  let x := lo + (hi - lo) * unit_sample g in
  (if in_closed lo hi x then x else lo, next g).

Definition normal (loc scale : float) (g : Z) : float * Z :=
  let g1 := next g in
  let g2 := next g1 in
  let z := (unit_sample g + unit_sample g1 + unit_sample g2) * 2 - 3 in
  (loc + scale * z, next g2).

Definition radians (x : float) : float := x * (3.141592653589793 / 180).

Definition cos (x : float) : float :=
  let x2 := x * x in
  1 - x2 / 2 + x2 * x2 / 24 - x2 * x2 * x2 / 720
    + x2 * x2 * x2 * x2 / 40320.

Definition sum (l : list float) : float := fold_left PrimFloat.add l 0.

Definition mean (l : list float) : float :=
  sum l / float_of_Z (Z.of_nat (length l)).

Definition std (l : list float) : float :=
  let m := mean l in
  PrimFloat.sqrt (mean (map (fun x => (x - m) * (x - m)) l)).

Definition column (j : nat) (X : list row) : list float :=
  map (fun r => nth j r 0) X.

Definition split (X : list row) (y : list float)
  : list row * list row * list float * list float :=
  let k := (length X * 4 / 5)%nat in
  (take k X, drop k X, take k y, drop k y).

Definition standardise (X : list row) (r : row) : row :=
  imap (fun j x =>
          let s := std (column j X) in
          (x - mean (column j X)) / (if s =? 0 then 1 else s)) r.

Definition grow (X : list row) (y : list float) : list Tree :=
  let m := mean y in
  [fun _ => m;
   fun r => if nth 6 r 0 <? 0 then m * 0.5 else m * 1.5].

Definition forest_mean (trees : list Tree) (r : row) : float :=
  mean (map (fun tree => tree r) trees).

Definition abs_error (y_true y_pred : list float) : float :=
  mean (zip_with (fun a b => PrimFloat.abs (a - b)) y_true y_pred).

Definition r2 (y_true y_pred : list float) : float :=
  let m := mean y_true in
  1 - sum (zip_with (fun a b => (a - b) * (a - b)) y_true y_pred)
      / sum (map (fun a => (a - m) * (a - m)) y_true).

End Ref.

#[global] Instance ref_numpy : Numpy := {|
  rng := Z;
  np_random_seed := fun s => s;
  np_random_uniform := Ref.uniform;
  np_random_normal := Ref.normal;
  np_cos := Ref.cos;
  np_radians := Ref.radians;
  np_std := Ref.std;
  np_mean := Ref.mean
|}.

#[global] Instance ref_sklearn : Sklearn := {|
  train_test_split := Ref.split;
  scaler_fit := Ref.standardise;
  forest_fit := Ref.grow;
  forest_predict := Ref.forest_mean;
  mean_absolute_error := Ref.abs_error;
  r2_score := Ref.r2
|}.

(** *** Concrete states and inputs *)

Module Sample.

Local Open Scope float_scope.

(** a fresh process with nothing on disk *)
Definition fresh : state := init Absent Absent 7%Z.

(** a forest of two trees that disagree, and one whose trees all say 0 *)
Definition forest_a : Regressor :=
  fitted_forest [fun _ => 10; fun r => 12 + nth 3 r 0 / 100].
Definition forest_zero : Regressor :=
  fitted_forest [fun _ => 0; fun _ => 0].

(** a regressor without [estimators_] *)
Definition plain : Regressor :=
  {| predict := fun r => Ok (nth 2 r 0 - 40); estimators_ := None |}.

Definition scaler_a : Scaler := Some (fun r => map (fun x => x / 2) r).

(** a process whose model and scaler are fitted, artifacts on disk *)
Definition ready : state :=
  {| model := forest_a; scaler := scaler_a;
     model_file := Stored forest_a; scaler_file := Stored scaler_a;
     np_random := 7%Z; log := [] |}.

(** a fresh process that finds a model blob and a corrupt scaler blob *)
Definition half_corrupt : state :=
  init (Stored forest_a) (Corrupt "invalid load key") 7%Z.

(** a fresh process that finds a corrupt model blob *)
Definition corrupt : state :=
  init (Corrupt "invalid load key") (Stored scaler_a) 7%Z.


(** the concrete scenario of the documentation *)
Definition weather : gmap string float :=
  {[ "solar_irradiance" := 5.5; "temperature" := 25.0; "humidity" := 50.0;
     "wind_speed" := 8.0; "cloud_cover" := 30.0 ]}.

Definition request (tf : timeframe) : PredictionInput :=
  {| in_latitude := 37.7749; in_longitude := -122.4194;
     in_surface_area := 50.0; in_tilt_angle := 30.0;
     in_azimuth_angle := 180.0; in_panel_efficiency := 0.20;
     in_timeframe := tf |}.

(** a fitted process whose trees all predict 0 *)
Definition ready_zero : state :=
  {| model := forest_zero; scaler := scaler_a;
     model_file := Stored forest_zero; scaler_file := Stored scaler_a;
     np_random := 7%Z; log := [] |}.

(** a fitted process whose regressor has no [estimators_] *)
Definition ready_plain : state :=
  {| model := plain; scaler := scaler_a;
     model_file := Stored plain; scaler_file := Stored scaler_a;
     np_random := 7%Z; log := [] |}.

(** a fitted process that finds another run's model blob next to a corrupt
    scaler blob *)
Definition stale_pair : state :=
  {| model := forest_a; scaler := scaler_a;
     model_file := Stored forest_zero;
     scaler_file := Corrupt "invalid load key";
     np_random := 7%Z; log := [] |}.

End Sample.

(** ** Vocabulary of the statements *)

(** The grid of the sweep in iteration order: tilt-major. *)
Definition grid : list (Z * Z) := list_prod tilt_range azimuth_range.

(** One comparison of the sweep. *)
Definition keep_best (best : Z * Z * float) (p : Z * Z) (output : float)
  : Z * Z * float :=
  if (snd best <? output)%float then (fst p, snd p, output) else best.

(** The values [max(0, x)] takes: zero or a positive float. *)
Definition is_output (o : float) : Prop :=
  o = 0%float \/ (0 <? o)%float = true.

(** The documented defaults of a weather reading. *)
Definition weather_defaults : gmap string float :=
  {[ "solar_irradiance" := 5.0%float; "temperature" := 25.0%float;
     "humidity" := 50.0%float; "wind_speed" := 5.0%float;
     "cloud_cover" := 30.0%float ]}.

Section Vocabulary.

Context `{NP : Numpy} `{SK : Sklearn}.

(** [predict] returns on every row. *)
Definition regressor_fitted (m : Regressor) : Prop :=
  forall x : row, exists v : float, predict m x = Ok v.

(** A usable model is in memory: the scaler is fitted and the regressor
    predicts. *)
Definition usable (st : state) : Prop :=
  is_Some (scaler st) /\ regressor_fitted (model st).


(** How the two [joblib.load] calls of [load_model] end: both return, or
    the first that raises decides. *)
Definition load_attempt (st : state) : result unit :=
  match joblib_load (model_file st) with
  | Raise e => Raise e
  | Ok _ =>
      match joblib_load (scaler_file st) with
      | Raise e => Raise e
      | Ok _ => Ok tt
      end
  end.


(** A computation that reads and writes the generator of [np.random] and
    nothing else, and always returns. *)
Definition rng_only {A} (m : M state A) : Prop :=
  forall st, exists a g,
    m st = (Ok a, set_np_random g st) /\
    forall st', np_random st' = np_random st ->
                m st' = (Ok a, set_np_random g st').

(** The model and the scaler transform a training run fits on a dataset. *)
Definition fit_pair (df : list TrainingExample) : Regressor * (row -> row) :=
  let '(X, y) := prepare_features df in
  let '(X_train, X_test, y_train, y_test) := train_test_split X y in
  let tr := scaler_fit X_train in
  (fitted_forest (forest_fit (map tr X_train) y_train), tr).

(** The same request for another timeframe. *)
Definition with_timeframe (tf : timeframe) (data : PredictionInput)
  : PredictionInput :=
  {| in_latitude := in_latitude data; in_longitude := in_longitude data;
     in_surface_area := in_surface_area data;
     in_tilt_angle := in_tilt_angle data;
     in_azimuth_angle := in_azimuth_angle data;
     in_panel_efficiency := in_panel_efficiency data;
     in_timeframe := tf |}.

(** The predictor at a grid point, as the optimiser calls it. *)
Definition predictor_at (latitude longitude surface_area panel_efficiency
    : float) (weather_data : gmap string float) (p : Z * Z)
  : M state (float * float) :=
  predict_power_output latitude longitude surface_area
    (float_of_Z (fst p)) (float_of_Z (snd p)) panel_efficiency weather_data.

End Vocabulary.

(** ** What the rest of the program takes from Python *)

Class Python := {
  (** state of the generator behind the [random] module *)
  py_rng : Type;
  (** [random.uniform(a, b)] *)
  random_uniform : float -> float -> py_rng -> float * py_rng;
  (** [hash] of a string: fixed for the life of a process, any integer *)
  py_hash : string -> Z;
  (** [x ** y] on floats *)
  float_pow : float -> float -> float
}.

(** The contract of [random.uniform(a, b)] for [a <= b]: a value between
    the two ends. *)
Definition random_contract `{Python} : Prop :=
  forall (a b : float) (g : py_rng),
    (a <=? b)%float = true ->
    in_closed a b (fst (random_uniform a b g)) = true.

(** An [int] of either sign that meets a float. *)
Definition float_of_int (z : Z) : float :=
  if (z <? 0)%Z then (- float_of_Z (- z))%float else float_of_Z z.

(** ** [WeatherService] *)

Module Weather.

Local Open Scope float_scope.

Inductive source_tag := mock_data | openweathermap | nasa_power.

(** The dictionary a provider returns: five numbers and the source tag. *)
Record reading := {
  values : gmap string float;
  source : source_tag
}.

(** The body of an OpenWeatherMap answer, as far as the service reads it:
    [data['main']['temp']], [data['main']['humidity']],
    [data['wind']['speed']] and [data['clouds']['all']]; [None] where the
    path is missing, which makes the lookup raise [KeyError]. *)
Record ow_body := {
  main_temp : option float;
  main_humidity : option float;
  wind_speed_ : option float;
  clouds_all : option float
}.

(** The parameters of a NASA POWER answer: for each, values by date.  Dates
    are the numbers [YYYYMMDD]; the program compares them as strings of
    eight digits, which orders them the same way. *)
Record nasa_body := {
  ALLSKY_SFC_SW_DWN : gmap N float;
  T2M : gmap N float;
  RH2M : gmap N float;
  WS10M : gmap N float;
  CLRSKY_SFC_SW_DWN : gmap N float
}.

(** The configured key and the two remote services: what the [k]-th HTTP
    request of the process is answered when it goes to one or the other,
    [None] when [requests.get] or [raise_for_status] raises a
    [RequestException]. *)
Record service := {
  openweather_api_key : string;
  openweather_api : nat -> float -> float -> option ow_body;
  nasa_power_api : nat -> float -> float -> option nasa_body
}.

Inductive log_record :=
| warning_no_api_key
| error_openweather
| error_nasa_power.

Section Service.

Context `{PY : Python}.

(** What changes as the service runs. *)
Record world := {
  requests_made : nat;
  random_state : py_rng;
  weather_log : list log_record
}.

(** A call returns or raises [KeyError]. *)
Inductive outcome (A : Type) :=
| Returned (a : A)
| KeyError.
Arguments Returned {A} a.
Arguments KeyError {A}.

Definition draw (a b : float) (w : world) : float * world :=
  let '(x, g) := random_uniform a b (random_state w) in
  (x, {| requests_made := requests_made w; random_state := g;
         weather_log := weather_log w |}).

Definition log_weather (r : log_record) (w : world) : world :=
  {| requests_made := requests_made w; random_state := random_state w;
     weather_log := weather_log w ++ [r] |}.

(** one more HTTP request has been sent *)
Definition sent (w : world) : world :=
  {| requests_made := S (requests_made w); random_state := random_state w;
     weather_log := weather_log w |}.

Definition make_reading (solar_irradiance temperature humidity wind_speed
    cloud_cover : float) (src : source_tag) : reading :=
  {| values := {[ "solar_irradiance" := solar_irradiance;
                  "temperature" := temperature;
                  "humidity" := humidity;
                  "wind_speed" := wind_speed;
                  "cloud_cover" := cloud_cover ]};
     source := src |}.

Definition get_mock_weather_data (latitude longitude : float) (w : world)
  : reading * world :=
  let base_temp := 25 - (PrimFloat.abs latitude * 0.5) in
  let '(solar_irradiance, w) := draw 3.0 7.5 w in
  let '(t, w) := draw (-10) 15 w in
  let '(humidity, w) := draw 30 80 w in
  let '(wind_speed, w) := draw 1 15 w in
  let '(cloud_cover, w) := draw 10 70 w in
  (make_reading solar_irradiance (base_temp + t) humidity wind_speed
                cloud_cover mock_data, w).

(** [_estimate_solar_irradiance], from the cloud cover it reads *)
Definition estimate_solar_irradiance (cloud_cover : float) : float :=
  let clear_sky_irradiance := 6.0 in
  let irradiance := clear_sky_irradiance * (1 - cloud_cover / 100 * 0.8) in
  py_max 1.0 irradiance.

Definition _estimate_solar_irradiance (openweather_data : ow_body)
  : outcome float :=
  match clouds_all openweather_data with
  | Some cloud_cover => Returned (estimate_solar_irradiance cloud_cover)
  | None => KeyError
  end.

Definition _estimate_cloud_cover (all_sky_radiation clear_sky_radiation
    : float) : float :=
  if clear_sky_radiation <=? 0 then 50
  else
    let ratio := all_sky_radiation / clear_sky_radiation in
    let cloud_cover := (1 - ratio) * 100 in
    py_max 0 (py_min 100 cloud_cover).

(** The dictionary [get_openweather_data] builds from an answer, its
    entries evaluated in order. *)
Definition openweather_reading (data : ow_body) : outcome reading :=
  match _estimate_solar_irradiance data with
  | KeyError => KeyError
  | Returned solar_irradiance =>
      match main_temp data, main_humidity data, wind_speed_ data,
            clouds_all data with
      | Some temperature, Some humidity, Some wind_speed, Some cloud_cover =>
          Returned (make_reading solar_irradiance temperature humidity
                                 wind_speed cloud_cover openweathermap)
      | _, _, _, _ => KeyError
      end
  end.

Definition get_openweather_data (sv : service) (latitude longitude : float)
    (w : world) : outcome reading * world :=
  if String.eqb (openweather_api_key sv) ""
  then
    let w := log_weather warning_no_api_key w in
    let '(r, w) := get_mock_weather_data latitude longitude w in
    (Returned r, w)
  else
    match openweather_api sv (requests_made w) latitude longitude with
    | Some data => (openweather_reading data, sent w)
    | None =>
        let w := log_weather error_openweather (sent w) in
        let '(r, w) := get_mock_weather_data latitude longitude w in
        (Returned r, w)
    end.

(** [max(d.keys())]; [None] for an empty dictionary, where [max] raises *)
Definition latest_date (d : gmap N float) : option N :=
  match map fst (map_to_list d) with
  | [] => None
  | k :: ks => Some (fold_left N.max ks k)
  end.

(** The dictionary [get_nasa_power_data] builds from an answer; [None]
    when building it raises. *)
Definition nasa_reading (data : nasa_body) : option reading :=
  latest ← latest_date (ALLSKY_SFC_SW_DWN data);
  solar_irradiance ← ALLSKY_SFC_SW_DWN data !! latest;
  temperature ← T2M data !! latest;
  humidity ← RH2M data !! latest;
  wind_speed ← WS10M data !! latest;
  all_sky ← ALLSKY_SFC_SW_DWN data !! latest;
  clear_sky ← CLRSKY_SFC_SW_DWN data !! latest;
  Some (make_reading solar_irradiance temperature humidity wind_speed
                     (_estimate_cloud_cover all_sky clear_sky) nasa_power).

Definition get_nasa_power_data (sv : service) (latitude longitude : float)
    (w : world) : outcome reading * world :=
  match
    match nasa_power_api sv (requests_made w) latitude longitude with
    | Some data => nasa_reading data
    | None => None
    end
  with
  | Some r => (Returned r, sent w)
  | None =>
      (* except Exception *)
      get_openweather_data sv latitude longitude
        (log_weather error_nasa_power (sent w))
  end.

(** the argument [source]: three names, anything else is automatic *)
Inductive source_arg := openweather | nasa | mock | auto.

Definition get_weather_data (sv : service) (latitude longitude : float)
    (src : source_arg) (w : world) : outcome reading * world :=
  match src with
  | openweather => get_openweather_data sv latitude longitude w
  | nasa => get_nasa_power_data sv latitude longitude w
  | mock =>
      let '(r, w) := get_mock_weather_data latitude longitude w in
      (Returned r, w)
  | auto =>
      match get_openweather_data sv latitude longitude w with
      | (KeyError, w) => (KeyError, w)
      | (Returned data, w) =>
          match source data with
          | mock_data =>
              match get_nasa_power_data sv latitude longitude w with
              | (KeyError, w) => (KeyError, w)
              | (Returned data, w) =>
                  match source data with
                  | openweathermap =>
                      let '(r, w) :=
                        get_mock_weather_data latitude longitude w in
                      (Returned r, w)
                  | _ => (Returned data, w)
                  end
              end
          | _ => (Returned data, w)
          end
      end
  end.

End Service.

Arguments Returned {A} a.
Arguments KeyError {A}.

End Weather.

(** ** [RecommendOptimalView.post], from the weather reading on *)

Section RecommendOptimalView.

Context `{NP : Numpy} `{SK : Sklearn}.

Local Open Scope float_scope.

Record RecommendationInput := {
  rec_latitude : float;
  rec_longitude : float;
  rec_surface_area : float;
  rec_panel_efficiency : float;
  rec_current_tilt : option float;
  rec_current_azimuth : option float
}.

(** The row of [OptimalConfiguration] the view creates. *)
Record OptimalConfiguration := {
  optimal_tilt : Z;
  optimal_azimuth : Z;
  max_predicted_output : float;
  current_tilt : float;
  current_azimuth : float;
  improvement_percentage : float
}.

Inductive recommend_response :=
| RECOMMEND_201_CREATED (optimal_config : OptimalConfiguration)
| RECOMMEND_500_INTERNAL_SERVER_ERROR.

(** [data.get(key, default)] on the validated data *)
Definition data_get (v : option float) (dflt : float) : float :=
  match v with
  | Some x => x
  | None => dflt
  end.

Definition improvement (max_output current_output : float) : float :=
  if 0 <? current_output
  then ((max_output - current_output) / current_output) * 100
  else 0.0.

Definition RecommendOptimalView_post (data : RecommendationInput)
    (weather_data : gmap string float) : state -> recommend_response * state :=
  fun st =>
    match
      (best ← find_optimal_configuration (rec_latitude data)
                (rec_longitude data) (rec_surface_area data)
                (rec_panel_efficiency data) weather_data;
       let '(optimal_tilt, optimal_azimuth, max_output) := best in
       let current_tilt := data_get (rec_current_tilt data) 30 in
       let current_azimuth := data_get (rec_current_azimuth data) 180 in
       r ← predict_power_output (rec_latitude data) (rec_longitude data)
             (rec_surface_area data) current_tilt current_azimuth
             (rec_panel_efficiency data) weather_data;
       let current_output := fst r in
       let improvement_percentage := improvement max_output current_output in
       mret {| optimal_tilt := optimal_tilt;
               optimal_azimuth := optimal_azimuth;
               max_predicted_output := max_output;
               current_tilt := current_tilt;
               current_azimuth := current_azimuth;
               improvement_percentage := improvement_percentage |}) st
    with
    | (Ok optimal_config, st') => (RECOMMEND_201_CREATED optimal_config, st')
    | (Raise _, st') => (RECOMMEND_500_INTERNAL_SERVER_ERROR, st')
    end.

(** ** The [retrain_model] command, from training to the sample prediction *)

Definition test_weather : gmap string float :=
  {[ "solar_irradiance" := 5.5; "temperature" := 25.0; "humidity" := 50.0;
     "wind_speed" := 8.0; "cloud_cover" := 30.0 ]}.

(** What [handle] computes inside its [try]: the training results and the
    sample prediction; [None] when either raises. *)
Definition retrain_handle : state -> option (metrics * (float * float)) * state :=
  fun st =>
    match
      (results ← train_model;
       sample ← predict_power_output 37.7749 (-122.4194) 50.0 30.0 180.0 0.20
                  test_weather;
       mret (results, sample)) st
    with
    | (Ok r, st') => (Some r, st')
    | (Raise _, st') => (None, st')
    end.

End RecommendOptimalView.

(** ** The series of [ReportGenerator._create_time_series_chart] *)

Module Report.

Section Chart.

Context `{PY : Python}.

Local Open Scope float_scope.

(** [f"{h:02d}:00"] for an hour of the day *)
Definition hour_label (h : nat) : string :=
  String (Ascii.ascii_of_nat (48 + h / 10))
    (String (Ascii.ascii_of_nat (48 + h mod 10)) ":00").

(** [1 + (hash(label) % 20 - 10) / 100] *)
Definition variation (label : string) : float :=
  1 + float_of_int (py_hash label mod 20 - 10) / 100.

Definition hourly_output (base_output : float) (hour : nat) : float :=
  if (6 <=? hour)%nat && (hour <=? 18)%nat
  then
    let solar_factor :=
      float_of_int (Z.abs (12 - Z.of_nat hour)) / 6 in
    let output_factor := 1 - (float_pow solar_factor 2) * 0.8 in
    base_output * output_factor
  else 0.

(** The labels and the values that are plotted. *)
Definition time_series (tf : timeframe) (predicted_output : float)
  : list string * list float :=
  match tf with
  | daily =>
      let times := map hour_label (seq 0 24) in
      let base_output := predicted_output / 24 in
      (times, map (hourly_output base_output) (seq 0 24))
  | weekly =>
      let times := ["Mon"; "Tue"; "Wed"; "Thu"; "Fri"; "Sat"; "Sun"]%string in
      let daily_output := predicted_output / 7 in
      (times, map (fun day => daily_output * variation day) times)
  | monthly =>
      let times := ["Week 1"; "Week 2"; "Week 3"; "Week 4"]%string in
      let weekly_output := predicted_output / 4 in
      (times, map (fun week => weekly_output * variation week) times)
  end.

End Chart.

End Report.

(** ** More reference instances and concrete inputs *)

Module RefPython.

Local Open Scope float_scope.

(** a hash of either sign *)
Definition hash (s : string) : Z :=
  (fold_left (fun h c => (h * 31 + Z.of_nat (Ascii.nat_of_ascii c)) mod 65521)
             (String.list_ascii_of_string s) 7 - 32760)%Z.

(** squares, the one power the program takes *)
Definition pow (x y : float) : float := if y =? 2 then x * x else nan.

End RefPython.

#[global] Instance ref_python : Python := {|
  py_rng := Z;
  random_uniform := Ref.uniform;
  py_hash := RefPython.hash;
  float_pow := RefPython.pow
|}.

Module SampleWeather.

Import Weather.
Local Open Scope float_scope.

Definition world0 : world :=
  {| requests_made := 0; random_state := 11%Z; weather_log := [] |}.

Definition clear_day : ow_body :=
  {| main_temp := Some 21.5; main_humidity := Some 40;
     wind_speed_ := Some 3.5; clouds_all := Some 20 |}.

Definition no_clouds_field : ow_body :=
  {| main_temp := Some 21.5; main_humidity := Some 40;
     wind_speed_ := Some 3.5; clouds_all := None |}.

Definition nasa_week : nasa_body :=
  {| ALLSKY_SFC_SW_DWN := {[ 20240101%N := 4.0; 20240102%N := 4.5 ]};
     T2M := {[ 20240101%N := 12.0; 20240102%N := 13.0 ]};
     RH2M := {[ 20240101%N := 60.0; 20240102%N := 55.0 ]};
     WS10M := {[ 20240101%N := 3.0; 20240102%N := 2.0 ]};
     CLRSKY_SFC_SW_DWN := {[ 20240101%N := 6.0; 20240102%N := 6.0 ]} |}.

(** OpenWeatherMap answers, NASA POWER is down *)
Definition openweather_up : service :=
  {| openweather_api_key := "k3y";
     openweather_api := fun _ _ _ => Some clear_day;
     nasa_power_api := fun _ _ _ => None |}.

(** no key configured, NASA POWER answers *)
Definition no_key : service :=
  {| openweather_api_key := "";
     openweather_api := fun _ _ _ => Some clear_day;
     nasa_power_api := fun _ _ _ => Some nasa_week |}.

(** OpenWeatherMap fails once and then answers, NASA POWER is down *)
Definition flaky : service :=
  {| openweather_api_key := "k3y";
     openweather_api :=
       fun k _ _ => match k with O => None | _ => Some clear_day end;
     nasa_power_api := fun _ _ _ => None |}.

End SampleWeather.

(** ** More vocabulary *)

(** The weather reading an example's own weather fields make. *)
Definition weather_of_example (ex : TrainingExample) : gmap string float :=
  {[ "solar_irradiance" := solar_irradiance ex;
     "temperature" := temperature ex;
     "humidity" := humidity ex;
     "wind_speed" := wind_speed ex;
     "cloud_cover" := cloud_cover ex ]}.


(** The shape of every dictionary the weather providers build. *)
Definition complete `{Python} (r : Weather.reading) : Prop :=
  exists a b c d e,
    r = Weather.make_reading a b c d e (Weather.source r).

(** What a NASA POWER request sent as the [k]-th yields: a reading, or
    [None] when the request or the construction of the reading raises. *)
Definition nasa_answer (sv : Weather.service) (k : nat)
    (latitude longitude : float) : option Weather.reading :=
  match Weather.nasa_power_api sv k latitude longitude with
  | Some data => Weather.nasa_reading data
  | None => None
  end.

(** * Properties *)

(** ** Order facts on binary64 values, from the IEEE specification *)

Section SpecOrder.

Implicit Types x y z : spec_float.

Lemma SFcompare_refl x : x <> S754_nan -> SFcompare x x = Some Eq.
Proof.
  destruct x as [s|s| |s m e]; intros Hx; try congruence; simpl.
  - reflexivity.
  - destruct s; reflexivity.
  - rewrite Z.compare_refl.
    change (Pos.compare_cont Eq m m) with (Pos.compare m m).
    rewrite Pos.compare_refl. destruct s; reflexivity.
Qed.

Lemma SFltb_SFleb x y : SFltb x y = true -> SFleb x y = true.
Proof.
  unfold SFltb, SFleb. destruct (SFcompare x y) as [[]|]; congruence.
Qed.

Lemma SFleb_not_nan x y :
  SFleb x y = true -> x <> S754_nan /\ y <> S754_nan.
Proof.
  unfold SFleb. destruct x, y; simpl; try discriminate; split; congruence.
Qed.

Lemma SFleb_refl_iff x : SFleb x x = true <-> x <> S754_nan.
Proof.
  split.
  - intros H. apply (SFleb_not_nan _ _ H).
  - intros H. unfold SFleb. rewrite SFcompare_refl; auto.
Qed.

Lemma SFltb_irrefl x : SFltb x x = false.
Proof.
  unfold SFltb. destruct x as [s|s| |s m e];
    try (rewrite SFcompare_refl by discriminate); reflexivity.
Qed.

Ltac cmp_cases :=
  repeat match goal with
  | |- context [Z.compare ?a ?b] =>
      destruct (Z.compare_spec a b); subst; simpl
  | H : context [Z.compare ?a ?b] |- _ =>
      destruct (Z.compare_spec a b); subst; simpl in H
  | |- context [Pos.compare_cont Eq ?a ?b] =>
      change (Pos.compare_cont Eq a b) with (Pos.compare a b);
      destruct (Pos.compare_spec a b); subst; simpl
  | H : context [Pos.compare_cont Eq ?a ?b] |- _ =>
      change (Pos.compare_cont Eq a b) with (Pos.compare a b) in H;
      destruct (Pos.compare_spec a b); subst; simpl in H
  end.

Lemma SFleb_SFltb_trans x y z :
  SFleb x y = true -> SFltb y z = true -> SFltb x z = true.
Proof.
  unfold SFleb, SFltb.
  destruct x as [sx|sx| |sx mx ex], y as [sy|sy| |sy my ey],
           z as [sz|sz| |sz mz ez]; simpl; try discriminate;
    repeat match goal with s : bool |- _ => destruct s end;
    simpl; try discriminate; try reflexivity;
    intros H1 H2; cmp_cases; try discriminate; try reflexivity; try lia.
Qed.

Lemma SFltb_false_SFleb x y :
  x <> S754_nan -> y <> S754_nan -> SFltb x y = false -> SFleb y x = true.
Proof.
  unfold SFleb, SFltb.
  destruct x as [sx|sx| |sx mx ex], y as [sy|sy| |sy my ey];
    simpl; try congruence;
    repeat match goal with s : bool |- _ => destruct s end;
    simpl; try congruence;
    intros _ _ H; cmp_cases; try discriminate; try reflexivity; try lia.
Qed.

Lemma SF64mul_comm x y : SF64mul x y = SF64mul y x.
Proof.
  unfold SF64mul, SFmul.
  destruct x as [sx|sx| |sx mx ex], y as [sy|sy| |sy my ey];
    try reflexivity; try (rewrite (xorb_comm sx sy); reflexivity).
  rewrite (xorb_comm sx sy), (Pos.mul_comm mx my), (Z.add_comm ex ey).
  reflexivity.
Qed.

End SpecOrder.

(** ** The same facts on Python floats *)

Section FloatOrder.

Local Open Scope float_scope.
Implicit Types a b c : float.

Lemma flt_fle a b : (a <? b) = true -> (a <=? b) = true.
Proof. rewrite FloatAxioms.ltb_spec, FloatAxioms.leb_spec. apply SFltb_SFleb. Qed.

Lemma fle_flt_trans a b c :
  (a <=? b) = true -> (b <? c) = true -> (a <? c) = true.
Proof. rewrite !FloatAxioms.ltb_spec, FloatAxioms.leb_spec. apply SFleb_SFltb_trans. Qed.

Lemma flt_irrefl a : (a <? a) = false.
Proof. rewrite FloatAxioms.ltb_spec. apply SFltb_irrefl. Qed.

Lemma fle_refl_l a b : (a <=? b) = true -> (a <=? a) = true.
Proof.
  rewrite !FloatAxioms.leb_spec. intros H. apply SFleb_refl_iff.
  apply (SFleb_not_nan _ _ H).
Qed.

Lemma fle_refl_r a b : (a <=? b) = true -> (b <=? b) = true.
Proof.
  rewrite !FloatAxioms.leb_spec. intros H. apply SFleb_refl_iff.
  apply (SFleb_not_nan _ _ H).
Qed.

Lemma flt_false_fle a b :
  (a <=? a) = true -> (b <=? b) = true -> (a <? b) = false ->
  (b <=? a) = true.
Proof.
  rewrite !FloatAxioms.leb_spec, FloatAxioms.ltb_spec. intros Ha Hb.
  apply SFltb_false_SFleb; apply SFleb_refl_iff; assumption.
Qed.

Lemma fmul_comm a b : a * b = b * a.
Proof.
  apply Prim2SF_inj. rewrite !FloatAxioms.mul_spec. apply SF64mul_comm.
Qed.

(** What [max(0, x)] can be: zero itself, or a positive float. *)
Lemma py_max_0_cases a :
  py_max 0 a = 0 \/ (0 <? py_max 0 a) = true.
Proof.
  unfold py_max. destruct (0 <? a) eqn:E; [right | left]; auto.
Qed.

Lemma py_max_0_nonneg a : (0 <=? py_max 0 a) = true.
Proof.
  destruct (py_max_0_cases a) as [-> | H]; [reflexivity | now apply flt_fle].
Qed.

(** [min(1.0, max(0.0, x))] lies in [[0, 1]], whatever [x] is. *)
Lemma clamp_unit_interval a :
  in_closed 0 1 (py_min 1.0 (py_max 0.0 a)) = true.
Proof.
  unfold in_closed, py_min.
  destruct (py_max 0 a <? 1) eqn:E.
  - rewrite py_max_0_nonneg. simpl. now apply flt_fle.
  - reflexivity.
Qed.

End FloatOrder.

(** ** The monad *)

Section MonadFacts.

Context {S : Type}.

Lemma bind_run {A B} (m : M S A) (f : A -> M S B) (s : S) :
  (m ≫= f) s =
  match m s with
  | (Ok a, s') => f a s'
  | (Raise e, s') => (Raise e, s')
  end.
Proof. reflexivity. Qed.

Lemma ret_run {A} (a : A) (s : S) : (mret a : M S A) s = (Ok a, s).
Proof. reflexivity. Qed.

Lemma bind_Ok_inv {A B} (m : M S A) (f : A -> M S B) (s s' : S) (b : B) :
  (m ≫= f) s = (Ok b, s') ->
  exists a s1, m s = (Ok a, s1) /\ f a s1 = (Ok b, s').
Proof.
  rewrite bind_run. destruct (m s) as [[a|e] s1]; [eauto | discriminate].
Qed.

Lemma for_each_app {A B} (xs ys : list A) (body : A -> B -> M S B)
    (acc : B) (s : S) :
  for_each (xs ++ ys) body acc s =
  (for_each xs body acc ≫= for_each ys body) s.
Proof.
  revert acc s. induction xs as [|x xs IH]; intros acc s; simpl.
  - reflexivity.
  - rewrite !bind_run. destruct (body x acc s) as [[acc'|e] s1]; auto.
Qed.

Lemma for_each_map {A A' B} (g : A -> A') (xs : list A)
    (body : A' -> B -> M S B) (acc : B) (s : S) :
  for_each (map g xs) body acc s = for_each xs (fun x => body (g x)) acc s.
Proof.
  revert acc s. induction xs as [|x xs IH]; intros acc s; simpl; auto.
  rewrite !bind_run. destruct (body (g x) acc s) as [[acc'|e] s1]; auto.
Qed.

(** Two nested loops are one loop over the product, outer index first. *)
Lemma for_each_nested {A1 A2 B} (xs : list A1) (ys : list A2)
    (body : A1 -> A2 -> B -> M S B) (acc : B) (s : S) :
  for_each xs (fun x b => for_each ys (body x) b) acc s =
  for_each (list_prod xs ys) (fun p => body (fst p) (snd p)) acc s.
Proof.
  revert acc s. induction xs as [|x xs IH]; intros acc s; simpl; auto.
  rewrite for_each_app, !bind_run, for_each_map. simpl.
  destruct (for_each ys (body x) acc s) as [[acc'|e] s1]; auto.
Qed.

(** A loop that calls [f] once per element and folds what it returns is
    the list of calls followed by the fold. *)
Lemma for_each_map_M {A B R} (f : A -> M S R) (step : B -> A -> R -> B)
    (xs : list A) (acc : B) (s : S) :
  for_each xs (fun x b => r ← f x; mret (step b x r)) acc s =
  match map_M f xs s with
  | (Ok rs, s') =>
      (Ok (fold_left (fun b xr => step b (fst xr) (snd xr)) (zip xs rs) acc),
       s')
  | (Raise e, s') => (Raise e, s')
  end.
Proof.
  revert acc s. induction xs as [|x xs IH]; intros acc s; simpl; auto.
  rewrite !bind_run. destruct (f x s) as [[r|e] s1]; auto.
  rewrite ret_run, IH, bind_run.
  destruct (map_M f xs s1) as [[rs|e] s2]; reflexivity.
Qed.

Lemma map_M_length {A B} (f : A -> M S B) (xs : list A) (s s' : S)
    (ys : list B) :
  map_M f xs s = (Ok ys, s') -> length ys = length xs.
Proof.
  revert s s' ys. induction xs as [|x xs IH]; intros s s' ys; simpl.
  - intros [= <- _]. reflexivity.
  - rewrite bind_run. destruct (f x s) as [[y|e] s1]; [|discriminate].
    rewrite bind_run. destruct (map_M f xs s1) as [[ys'|e] s2] eqn:E;
      [|discriminate].
    intros [= <- _]. simpl. f_equal. eauto.
Qed.

Lemma map_M_Forall {A B} (P : B -> Prop) (f : A -> M S B) (xs : list A) :
  (forall x s y s', f x s = (Ok y, s') -> P y) ->
  forall s s' ys, map_M f xs s = (Ok ys, s') -> Forall P ys.
Proof.
  intros Hf. induction xs as [|x xs IH]; intros s s' ys; simpl.
  - intros [= <- _]. constructor.
  - rewrite bind_run. destruct (f x s) as [[y|e] s1] eqn:Ef; [|discriminate].
    rewrite bind_run. destruct (map_M f xs s1) as [[ys'|e] s2] eqn:E;
      [|discriminate].
    intros [= <- _]. constructor; eauto.
Qed.

End MonadFacts.

(** ** The sweep *)

Section Sweep.

Local Open Scope float_scope.

(** The best triple after a run of comparisons. *)
Lemma keep_best_fold (pos : list ((Z * Z) * (float * float))) :
  Forall (fun xr => is_output (fst (snd xr))) pos ->
  let best :=
    fold_left (fun b xr => keep_best b (fst xr) (fst (snd xr))) pos
              (0%Z, 0%Z, 0) in
  is_output (snd best) /\
  (forall j xr, pos !! j = Some xr -> (fst (snd xr) <=? snd best) = true) /\
  ((best = (0%Z, 0%Z, 0) /\
    forall j xr, pos !! j = Some xr -> fst (snd xr) = 0) \/
   (exists i r,
      pos !! i = Some (fst best, r) /\ fst r = snd best /\
      forall j xr, (j < i)%nat -> pos !! j = Some xr ->
                   (fst (snd xr) <? snd best) = true)).
Proof.
  induction pos as [|[p [o c]] pos IH] using rev_ind; intros Hall best.
  - subst best. simpl. split; [left; reflexivity|].
    split; [intros j xr H; discriminate|].
    left. split; [reflexivity | intros j xr H; discriminate].
  - apply Forall_app in Hall as [Hpos Hr].
    apply Forall_inv in Hr. simpl in Hr.
    specialize (IH Hpos). simpl in IH.
    subst best. rewrite fold_left_app. simpl.
    destruct (fold_left _ pos _) as [[bt ba] bo] eqn:Efold.
    simpl in IH. destruct IH as (Hbo & Hmax & Hfirst).
    assert (Hbo_refl : (bo <=? bo) = true).
    { destruct Hbo as [-> | H]; [reflexivity|].
      apply flt_fle in H. eapply fle_refl_r; eauto. }
    assert (Hr_refl : (o <=? o) = true).
    { destruct Hr as [-> | H]; [reflexivity|].
      apply flt_fle in H. eapply fle_refl_r; eauto. }
    unfold keep_best. simpl. destruct (bo <? o) eqn:E; simpl.
    + assert (Hlt : forall j xr, pos !! j = Some xr ->
                      (fst (snd xr) <? o) = true).
      { intros j xr Hj. eapply fle_flt_trans; eauto. }
      split; [|split].
      * right. destruct Hbo as [-> | H]; [assumption|].
        eapply fle_flt_trans; [apply flt_fle|]; eauto.
      * intros j xr Hj. apply lookup_app_Some in Hj as [Hj | [_ Hj]].
        -- apply flt_fle. eauto.
        -- destruct (j - length pos)%nat; [|discriminate].
           injection Hj as <-. assumption.
      * right. exists (length pos), (o, c). split; [|split; [reflexivity|]].
        -- destruct p. now apply list_lookup_middle.
        -- intros j xr Hlen Hj. rewrite lookup_app_l in Hj by assumption.
           eauto.
    + assert (Hle : (o <=? bo) = true) by now apply flt_false_fle.
      split; [assumption | split].
      * intros j xr Hj. apply lookup_app_Some in Hj as [Hj | [_ Hj]].
        -- eauto.
        -- destruct (j - length pos)%nat; [|discriminate].
           injection Hj as <-. assumption.
      * destruct Hfirst as [[Hinit Hzero] | (i & r0 & Hi & Hr0 & Hbefore)].
        -- left. split; [assumption|].
           injection Hinit as _ _ ->.
           intros j xr Hj. apply lookup_app_Some in Hj as [Hj | [_ Hj]].
           ++ eauto.
           ++ destruct (j - length pos)%nat; [|discriminate].
              injection Hj as <-. simpl.
              destruct Hr as [? | H]; [assumption | congruence].
        -- right. exists i, r0. split; [|split; [assumption|]].
           ++ now apply lookup_app_l_Some.
           ++ intros j xr Hlen Hj.
              rewrite lookup_app_l in Hj; [eauto|].
              apply lookup_lt_Some in Hi. lia.
Qed.

End Sweep.

Section Optimiser.

Context `{NP : Numpy} `{SK : Sklearn}.

Local Open Scope float_scope.

Lemma for_each_ext {S A B} (xs : list A) (body1 body2 : A -> B -> M S B) :
  (forall x b s, body1 x b s = body2 x b s) ->
  forall acc s, for_each xs body1 acc s = for_each xs body2 acc s.
Proof.
  intros Hext. induction xs as [|x xs IH]; intros acc s; simpl; auto.
  rewrite !bind_run, Hext. destruct (body2 x acc s) as [[acc'|e] s1]; auto.
Qed.

(** The sweep is: call the predictor once at every point of [grid], in
    order, stopping at the first call that raises; then run the comparisons
    over what the calls returned. *)
Lemma find_optimal_with_sweep {S} (predictor : Z -> Z -> M S (float * float))
    (s : S) :
  find_optimal_with predictor s =
  match map_M (fun p => predictor (fst p) (snd p)) grid s with
  | (Ok rs, s') =>
      (Ok (fold_left (fun b xr => keep_best b (fst xr) (fst (snd xr)))
                     (zip grid rs) (0%Z, 0%Z, 0)), s')
  | (Raise e, s') => (Raise e, s')
  end.
Proof.
  unfold find_optimal_with.
  etransitivity;
    [apply (for_each_nested tilt_range azimuth_range
              (fun tilt azimuth best =>
                 let '(best_tilt, best_azimuth, best_output) := best in
                 r ← predictor tilt azimuth;
                 if best_output <? fst r
                 then mret (tilt, azimuth, fst r)
                 else mret (best_tilt, best_azimuth, best_output)))|].
  fold grid.
  rewrite <- (for_each_map_M (fun p => predictor (fst p) (snd p))
                (fun b p r => keep_best b p (fst r))).
  apply for_each_ext. intros p [[bt ba] bo] s0.
  rewrite !bind_run. destruct (predictor (fst p) (snd p) s0) as [[r|e] s1];
    [|reflexivity].
  unfold keep_best. simpl. destruct (bo <? fst r); reflexivity.
Qed.

(** A predictor that records where it is called is called on the list it
    is mapped over, in order. *)
Lemma map_M_recording {A B} (f : A -> B) (xs calls : list A) :
  map_M (fun x called => (Ok (f x), called ++ [x])) xs calls
  = (Ok (map f xs), calls ++ xs).
Proof.
  revert calls. induction xs as [|x xs IH]; intros calls; simpl.
  - rewrite app_nil_r. reflexivity.
  - rewrite !bind_run, IH, <- app_assoc. reflexivity.
Qed.

Lemma for_each_calls_recorded (stub : Z -> Z -> float * float)
    (calls : list (Z * Z)) :
  map_M (fun (p : Z * Z) called =>
           (Ok (stub (fst p) (snd p)), called ++ [(fst p, snd p)]))
        grid calls
  = (Ok (map (fun p => stub (fst p) (snd p)) grid), calls ++ grid).
Proof.
  rewrite <- (map_M_recording (fun p => stub (fst p) (snd p))).
  generalize grid. intros xs. revert calls.
  induction xs as [|[t a] xs IH]; intros calls; simpl; [reflexivity|].
  rewrite !bind_run, IH. reflexivity.
Qed.

Lemma predict_body_output lat lon area tilt az eff w (st st' : state) r :
  predict_body lat lon area tilt az eff w st = (Ok r, st') ->
  is_output (fst r) /\ in_closed 0 1 (snd r) = true.
Proof.
  unfold predict_body. intros H.
  apply bind_Ok_inv in H as (x & s1 & _ & H).
  apply bind_Ok_inv in H as (y & s2 & _ & H).
  apply bind_Ok_inv in H as (m & s3 & _ & H).
  rewrite ret_run in H. injection H as <- _. simpl. split.
  - apply py_max_0_cases.
  - apply clamp_unit_interval.
Qed.

Lemma predict_power_output_is_output lat lon area tilt az eff w
    (st st' : state) r :
  predict_power_output lat lon area tilt az eff w st = (Ok r, st') ->
  is_output (fst r) /\ in_closed 0 1 (snd r) = true.
Proof.
  unfold predict_power_output. intros H.
  apply bind_Ok_inv in H as (x & s1 & _ & H).
  eapply predict_body_output; eauto.
Qed.

(** C1: [find_optimal_configuration] calls the predictor at exactly the
    13 x 25 = 325 grid points, tilt 0, 5, ..., 60 by azimuth 0, 15, ..., 360,
    tilt-major and in ascending order (a predictor stubbed to record its
    calls records exactly that list), and a call that raises ends the
    search with that exception.  When all calls return, the triple it
    returns has as [best_output] the maximum of the outputs, and as angles
    the first grid point whose output is that maximum, every earlier output
    being strictly smaller.  If every output is 0 the triple is the initial
    (0, 0, 0), and if every output is one constant [c] it is (0, 0, c). *)
Theorem find_optimal_configuration_grid_search
    (latitude longitude surface_area panel_efficiency : float)
    (weather_data : gmap string float) (st : state) :
  tilt_range = [0; 5; 10; 15; 20; 25; 30; 35; 40; 45; 50; 55; 60]%Z /\
  azimuth_range =
    [0; 15; 30; 45; 60; 75; 90; 105; 120; 135; 150; 165; 180; 195; 210;
     225; 240; 255; 270; 285; 300; 315; 330; 345; 360]%Z /\
  grid = list_prod tilt_range azimuth_range /\
  length grid = 325%nat /\
  (forall stub : Z -> Z -> float * float,
     snd (find_optimal_with
            (fun tilt azimuth called =>
               (Ok (stub tilt azimuth), called ++ [(tilt, azimuth)])) [])
     = grid) /\
  match map_M (predictor_at latitude longitude surface_area panel_efficiency
                            weather_data) grid st with
  | (Raise e, st') =>
      find_optimal_configuration latitude longitude surface_area
        panel_efficiency weather_data st = (Raise e, st')
  | (Ok results, st') =>
      length results = 325%nat /\
      exists best_tilt best_azimuth best_output,
        find_optimal_configuration latitude longitude surface_area
          panel_efficiency weather_data st
        = (Ok (best_tilt, best_azimuth, best_output), st') /\
        (forall j r, results !! j = Some r ->
                     (fst r <=? best_output) = true) /\
        (exists i r,
           grid !! i = Some (best_tilt, best_azimuth) /\
           results !! i = Some r /\ fst r = best_output /\
           forall j r', (j < i)%nat -> results !! j = Some r' ->
                        (fst r' <? best_output) = true) /\
        ((forall j r, results !! j = Some r -> fst r = 0) ->
         (best_tilt, best_azimuth, best_output) = (0%Z, 0%Z, 0)) /\
        (forall c, (forall j r, results !! j = Some r -> fst r = c) ->
                   (best_tilt, best_azimuth, best_output) = (0%Z, 0%Z, c))
  end.
Proof.
  split; [reflexivity|]. split; [reflexivity|]. split; [reflexivity|].
  split; [reflexivity|]. split.
  { intros stub. rewrite find_optimal_with_sweep.
    rewrite (for_each_calls_recorded stub). reflexivity. }
  unfold find_optimal_configuration. rewrite find_optimal_with_sweep.
  change (fun p : Z * Z =>
            predict_power_output latitude longitude surface_area
              (float_of_Z (fst p)) (float_of_Z (snd p)) panel_efficiency
              weather_data)
    with (predictor_at latitude longitude surface_area panel_efficiency
                       weather_data).
  destruct (map_M _ grid st) as [[results|e] st'] eqn:Ecalls; [|reflexivity].
  pose proof (map_M_length _ _ _ _ _ Ecalls) as Hlen.
  change (length grid) with 325%nat in Hlen.
  split; [assumption|].
  assert (Hout : Forall (fun r => is_output (fst r)) results).
  { eapply (map_M_Forall (fun r => is_output (fst r))); [|exact Ecalls].
    intros p s r s' Hp. unfold predictor_at in Hp.
    apply predict_power_output_is_output in Hp. tauto. }
  assert (Hzip : forall j xr, zip grid results !! j = Some xr <->
                   grid !! j = Some (fst xr) /\ results !! j = Some (snd xr)).
  { intros j [p r]. rewrite lookup_zip_with_Some. simpl. split.
    - intros (x & y & [= -> ->] & ? & ?). auto.
    - intros [? ?]. eauto. }
  assert (Hgrid : forall j r, results !! j = Some r ->
                    exists p, zip grid results !! j = Some (p, r)).
  { intros j r Hj.
    destruct (lookup_lt_is_Some_2 grid j) as [p Hp].
    { apply lookup_lt_Some in Hj. change (length grid) with 325%nat. lia. }
    exists p. apply Hzip. auto. }
  destruct (keep_best_fold (zip grid results)) as (_ & Hmax & Hfirst).
  { apply Forall_lookup_2. intros j xr Hj. apply Hzip in Hj as [_ Hj].
    eapply Forall_lookup_1 in Hout; eauto. }
  destruct (fold_left _ (zip grid results) _) as [[bt ba] bo].
  simpl in Hmax, Hfirst.
  assert (Hfirst' : exists i r,
            grid !! i = Some (bt, ba) /\ results !! i = Some r /\
            fst r = bo /\
            forall j r', (j < i)%nat -> results !! j = Some r' ->
                         (fst r' <? bo) = true).
  { destruct Hfirst as [[Hinit Hzero] | (i & r & Hi & Hr & Hbefore)].
    - injection Hinit as -> -> ->.
      destruct (lookup_lt_is_Some_2 results 0) as [r Hr]; [lia|].
      exists 0%nat, r. split; [reflexivity|]. split; [assumption|]. split.
      + destruct (Hgrid _ _ Hr) as [p Hp]. apply (Hzero _ _ Hp).
      + intros j r' Hj. lia.
    - exists i, r. apply Hzip in Hi as [Hi1 Hi2]. simpl in Hi1, Hi2.
      split; [assumption|]. split; [assumption|]. split; [assumption|].
      intros j r' Hlt Hj. destruct (Hgrid _ _ Hj) as [p Hp].
      apply (Hbefore _ _ Hlt Hp). }
  assert (Hconst : forall c,
            (forall j r, results !! j = Some r -> fst r = c) ->
            (bt, ba, bo) = (0%Z, 0%Z, c)).
  { intros c Hc. destruct Hfirst' as (i & r & Hi & Hr & Hbo & Hbefore).
    destruct i as [|i].
    - injection Hi as <- <-. rewrite <- Hbo. f_equal. eauto.
    - destruct (lookup_lt_is_Some_2 results 0) as [r0 Hr0]; [lia|].
      assert (H0 : (fst r0 <? bo) = true) by (apply (Hbefore 0%nat); [lia|auto]).
      rewrite (Hc _ _ Hr0), <- Hbo, (Hc _ _ Hr), flt_irrefl in H0.
      discriminate. }
  exists bt, ba, bo. split; [reflexivity|]. split.
  { intros j r Hj. destruct (Hgrid _ _ Hj) as [p Hp]. apply (Hmax _ _ Hp). }
  split; [assumption|]. split; [apply Hconst|apply Hconst].
Qed.

End Optimiser.

(** ** The predictor *)

Section Predictor.

Context `{NP : Numpy} `{SK : Sklearn}.

Local Open Scope float_scope.

(** With a fitted scaler the fitted-state check passes and nothing is
    loaded. *)
Lemma predict_power_output_fitted lat lon area tilt az eff w (st : state)
    (f : row -> row) :
  scaler st = Some f ->
  predict_power_output lat lon area tilt az eff w st =
  predict_body lat lon area tilt az eff w st.
Proof.
  intros Hs. unfold predict_power_output, try_except, check_is_fitted.
  rewrite !bind_run. unfold gets. rewrite Hs. reflexivity.
Qed.

Lemma predict_body_run lat lon area tilt az eff w (st : state)
    (f : row -> row) :
  scaler st = Some f ->
  predict_body lat lon area tilt az eff w st =
  match predict (model st) (f (input_data lat lon area tilt az eff w)) with
  | Ok prediction =>
      (Ok (py_max 0 prediction,
           py_min 1.0 (py_max 0.0
             (raw_confidence (model st)
                (f (input_data lat lon area tilt az eff w))))), st)
  | Raise e => (Raise e, st)
  end.
Proof.
  intros Hs. unfold predict_body, scaler_transform, gets, lift_result.
  rewrite !bind_run, Hs. simpl. rewrite !bind_run.
  destruct (predict (model st) _) as [v|e]; reflexivity.
Qed.



(** The clamp of the confidence, case by case. *)
Lemma clamp_cases (c : float) :
  ((0 <? c) = false -> py_min 1.0 (py_max 0.0 c) = 0) /\
  ((0 <? c) = true -> (c <? 1) = true -> py_min 1.0 (py_max 0.0 c) = c) /\
  ((0 <? c) = true -> (c <? 1) = false -> py_min 1.0 (py_max 0.0 c) = 1).
Proof.
  unfold py_min, py_max. repeat split; intros H; rewrite H.
  - reflexivity.
  - intros ->. reflexivity.
  - intros ->. reflexivity.
Qed.

(** A usable model answers, and the state stays as it was. *)
Lemma predict_power_output_usable lat lon area tilt az eff w (st : state) :
  usable st ->
  exists (f : row -> row) (v : float),
    scaler st = Some f /\
    predict (model st) (f (input_data lat lon area tilt az eff w)) = Ok v /\
    predict_power_output lat lon area tilt az eff w st =
    (Ok (py_max 0 v,
         py_min 1.0 (py_max 0.0
           (raw_confidence (model st)
              (f (input_data lat lon area tilt az eff w))))), st).
Proof.
  intros [[f Hs] Hm].
  destruct (Hm (f (input_data lat lon area tilt az eff w))) as [v Hv].
  exists f, v. split; [assumption|]. split; [assumption|].
  rewrite (predict_power_output_fitted _ _ _ _ _ _ _ _ _ Hs).
  rewrite (predict_body_run _ _ _ _ _ _ _ _ _ Hs), Hv. reflexivity.
Qed.

(** C2: on a fitted model state, for all inputs, [predict_power_output]
    returns a pair (output, confidence) with output >= 0 and
    0 <= confidence <= 1; the confidence is
    [min(1.0, max(0.0, 1 - std(p) / mean(p)))] over the per-tree predictions
    [p] when the model has [estimators_], and 0.8 otherwise.  Nothing is
    assumed of [std] and [mean], so the bounds hold when the mean is zero. *)
Theorem predict_power_output_bounds
    (latitude longitude surface_area tilt_angle azimuth_angle
     panel_efficiency : float) (weather_data : gmap string float)
    (st : state) :
  usable st ->
  exists output confidence input_scaled,
    scaler_transform
      [input_data latitude longitude surface_area tilt_angle azimuth_angle
                  panel_efficiency weather_data] st
    = (Ok [input_scaled], st) /\
    predict_power_output latitude longitude surface_area tilt_angle
      azimuth_angle panel_efficiency weather_data st
    = (Ok (output, confidence), st) /\
    (0 <=? output) = true /\
    (0 <=? confidence) = true /\ (confidence <=? 1) = true /\
    (forall trees, estimators_ (model st) = Some trees ->
       let predictions := map (fun tree => tree input_scaled) trees in
       confidence =
       py_min 1.0 (py_max 0.0 (1 - np_std predictions / np_mean predictions)))
    /\
    (estimators_ (model st) = None -> confidence = 0.8).
Proof.
  intros Hu.
  destruct (predict_power_output_usable latitude longitude surface_area
              tilt_angle azimuth_angle panel_efficiency weather_data st Hu)
    as (f & v & Hs & Hv & Hrun).
  eexists _, _, _. split.
  { unfold scaler_transform, gets. rewrite bind_run, Hs. reflexivity. }
  split; [exact Hrun|].
  split; [apply py_max_0_nonneg|].
  pose proof (clamp_unit_interval
                (raw_confidence (model st)
                   (f (input_data latitude longitude surface_area tilt_angle
                         azimuth_angle panel_efficiency weather_data))))
    as Hc.
  unfold in_closed in Hc. apply andb_prop in Hc as [Hc0 Hc1].
  split; [exact Hc0|]. split; [exact Hc1|].
  unfold raw_confidence. split.
  - intros trees ->. reflexivity.
  - intros ->. reflexivity.
Qed.


(** C9: with a fitted model and scaler, [predict_power_output] leaves the
    state as it found it (nothing is loaded, trained, written or logged), so
    a second call with the same arguments returns the same
    (output, confidence). *)
Theorem predict_power_output_pure
    (latitude longitude surface_area tilt_angle azimuth_angle
     panel_efficiency : float) (weather_data : gmap string float)
    (st : state) :
  usable st ->
  exists output confidence,
    predict_power_output latitude longitude surface_area tilt_angle
      azimuth_angle panel_efficiency weather_data st
    = (Ok (output, confidence), st) /\
    predict_power_output latitude longitude surface_area tilt_angle
      azimuth_angle panel_efficiency weather_data
      (snd (predict_power_output latitude longitude surface_area tilt_angle
              azimuth_angle panel_efficiency weather_data st))
    = (Ok (output, confidence), st).
Proof.
  intros Hu.
  destruct (predict_power_output_usable latitude longitude surface_area
              tilt_angle azimuth_angle panel_efficiency weather_data st Hu)
    as (f & v & _ & _ & H).
  eexists _, _. rewrite H. simpl. auto.
Qed.

End Predictor.

(** ** The synthetic data generator *)

Section Generator.

Context `{NP : Numpy} `{SK : Sklearn}.

Local Open Scope float_scope.

Lemma set_np_random_twice (g g' : rng) (st : state) :
  set_np_random g' (set_np_random g st) = set_np_random g' st.
Proof. reflexivity. Qed.

Lemma rng_only_ret {A} (a : A) : rng_only (mret a).
Proof.
  intros st. exists a, (np_random st). split.
  - destruct st; reflexivity.
  - intros st' <-. destruct st'; reflexivity.
Qed.

Lemma rng_only_bind {A B} (m : M state A) (f : A -> M state B) :
  rng_only m -> (forall a, rng_only (f a)) -> rng_only (m ≫= f).
Proof.
  intros Hm Hf st. destruct (Hm st) as (a & g & Hrun & Hsame).
  destruct (Hf a (set_np_random g st)) as (b & g' & Hrun' & Hsame').
  exists b, g'. split.
  - rewrite bind_run, Hrun, Hrun'. reflexivity.
  - intros st' Hst'. rewrite bind_run, (Hsame st' Hst').
    rewrite (Hsame' (set_np_random g st')) by reflexivity. reflexivity.
Qed.

Lemma rng_only_uniform lo hi : rng_only (uniform lo hi).
Proof.
  intros st. unfold uniform.
  destruct (np_random_uniform lo hi (np_random st)) as [x g] eqn:E.
  exists x, g. split; [reflexivity|].
  intros st' ->. rewrite E. reflexivity.
Qed.

Lemma rng_only_normal loc scale : rng_only (normal loc scale).
Proof.
  intros st. unfold normal.
  destruct (np_random_normal loc scale (np_random st)) as [x g] eqn:E.
  exists x, g. split; [reflexivity|].
  intros st' ->. rewrite E. reflexivity.
Qed.

Lemma rng_only_generate_example : rng_only generate_example.
Proof.
  unfold generate_example.
  repeat (apply rng_only_bind; [apply rng_only_uniform | intros ?]).
  apply rng_only_bind; [apply rng_only_normal | intros ?].
  apply rng_only_ret.
Qed.

Lemma rng_only_generate_loop n data : rng_only (generate_loop n data).
Proof.
  revert data. induction n as [|n IH]; intros data; simpl.
  - apply rng_only_ret.
  - apply rng_only_bind; [apply rng_only_generate_example | auto].
Qed.

(** The dataset and the generator state after it depend on the sample count
    alone. *)
Lemma generate_synthetic_data_run (n : nat) :
  exists data g, forall st : state,
    generate_synthetic_data n st = (Ok data, set_np_random g st).
Proof.
  destruct (rng_only_generate_loop n []
              (init Absent Absent (np_random_seed 42)))
    as (data & g & _ & Hsame).
  exists data, g. intros st. unfold generate_synthetic_data.
  rewrite bind_run. unfold modify.
  rewrite (Hsame (set_np_random (np_random_seed 42) st)) by reflexivity.
  reflexivity.
Qed.





(** C8: [generate_synthetic_data] reseeds the generator before it samples:
    two calls with the same [n_samples] return the same dataset, field by
    field and row by row, and leave the generator in the same state,
    whatever the states they start from. *)
Theorem generate_synthetic_data_deterministic (n_samples : nat)
    (st1 st2 : state) :
  fst (generate_synthetic_data n_samples st1) =
  fst (generate_synthetic_data n_samples st2) /\
  (exists data, fst (generate_synthetic_data n_samples st1) = Ok data) /\
  np_random (snd (generate_synthetic_data n_samples st1)) =
  np_random (snd (generate_synthetic_data n_samples st2)).
Proof.
  destruct (generate_synthetic_data_run n_samples) as (data & g & Hrun).
  rewrite (Hrun st1), (Hrun st2). simpl. eauto.
Qed.

End Generator.

(** The reference generator honours numpy's contract for [uniform]. *)
Lemma ref_uniform_contract : @uniform_contract ref_numpy.
Proof.
  intros lo hi g Hlt. simpl. unfold Ref.uniform. simpl.
  match goal with |- context [if ?b then _ else _] => destruct b eqn:E end.
  - exact E.
  - unfold in_closed. rewrite Hlt, andb_true_r.
    eapply fle_refl_l; eauto.
Qed.


(** ** The trainer and the model store *)

Section Store.

Context `{NP : Numpy} `{SK : Sklearn}.

Local Open Scope float_scope.

Lemma map_M_lift_Ok {S A B} (g : A -> B) (xs : list A) (s : S) :
  map_M (fun x => lift_result (Ok (g x))) xs s = (Ok (map g xs), s).
Proof.
  induction xs as [|x xs IH]; simpl; [reflexivity|].
  rewrite bind_run. unfold lift_result at 1. rewrite bind_run, IH.
  reflexivity.
Qed.

Lemma generate_loop_length n :
  forall data (st st' : state) data',
    generate_loop n data st = (Ok data', st') ->
    length data' = (length data + n)%nat.
Proof.
  induction n as [|n IH]; intros data st st' data'; simpl.
  - rewrite ret_run. intros [= <- _]. lia.
  - intros H. apply bind_Ok_inv in H as (ex & s & _ & H).
    apply IH in H. rewrite H, length_app. simpl. lia.
Qed.

Lemma fitted_forest_fitted (trees : list Tree) :
  regressor_fitted (fitted_forest trees).
Proof. intros x. eexists. reflexivity. Qed.

(** A training run: the dataset of the default sample count, the pair
    fitted on it in memory and on disk, two log records. *)
Lemma train_model_run :
  exists df g,
    length df = default_n_samples /\
    (forall st0 : state,
       generate_synthetic_data default_n_samples st0
       = (Ok df, set_np_random g st0)) /\
    forall st : state, exists ms,
      train_model st =
      (Ok ms,
       {| model := fst (fit_pair df);
          scaler := Some (snd (fit_pair df));
          model_file := Stored (fst (fit_pair df));
          scaler_file := Stored (Some (snd (fit_pair df)));
          np_random := g;
          log := log st ++ [info_training_started;
                            info_training_completed (mae ms) (r2_score_ ms)]
       |}).
Proof.
  destruct (generate_synthetic_data_run default_n_samples)
    as (df & g & Hgen).
  exists df, g. split; [|split; [exact Hgen|]].
  - pose proof (Hgen (init Absent Absent (np_random_seed 42))) as H.
    unfold generate_synthetic_data in H.
    apply bind_Ok_inv in H as (u & s & _ & H).
    apply generate_loop_length in H. exact H.
  - intros st. unfold train_model.
    rewrite bind_run. unfold logger at 1, modify at 1.
    rewrite bind_run, Hgen.
    unfold fit_pair.
    destruct (prepare_features df) as [X y].
    destruct (train_test_split X y) as [[[X_train X_test] y_train] y_test].
    eexists {| mae := _; r2_score_ := _ |}.
    rewrite bind_run. unfold modify at 1.
    unfold scaler_transform. rewrite !bind_run. unfold gets at 1. simpl.
    rewrite !bind_run. unfold gets at 1. unfold modify at 1. simpl.
    rewrite !bind_run. unfold modify at 1. simpl.
    unfold model_predict. rewrite !bind_run. unfold gets at 1. simpl.
    rewrite map_M_lift_Ok.
    unfold logger, modify, gets, mbind, M_bind, mret, M_ret. simpl.
    unfold set_scaler_file, set_model_file, set_model, set_scaler,
      set_np_random. simpl.
    rewrite <- app_assoc. reflexivity.
Qed.

(** The branches of [load_model]. *)
Lemma load_model_run (st : state) :
  load_model st =
  let handler (e : exn) : M state bool :=
    match e with
    | FileNotFoundError =>
        logger warning_model_not_found;; train_model;; mret true
    | e => logger (error_loading_model e);; mret false
    end in
  match joblib_load (model_file st) with
  | Ok m =>
      match joblib_load (scaler_file st) with
      | Ok s => (Ok true, set_scaler s (set_model m st))
      | Raise e => handler e (set_model m st)
      end
  | Raise e => handler e st
  end.
Proof.
  destruct st as [m0 s0 mf sf g0 l0].
  destruct mf as [|msg|m]; [reflexivity | reflexivity |].
  destruct sf as [|msg|s]; reflexivity.
Qed.

(** What [load_model] does, by how the two loads end. *)
Lemma load_model_cases (st : state) :
  (exists m s,
     model_file st = Stored m /\ scaler_file st = Stored s /\
     load_attempt st = Ok tt /\
     load_model st = (Ok true, set_scaler s (set_model m st))) \/
  (exists df g ms,
     load_attempt st = Raise FileNotFoundError /\
     length df = default_n_samples /\
     (forall st0 : state,
        generate_synthetic_data default_n_samples st0
        = (Ok df, set_np_random g st0)) /\
     load_model st =
     (Ok true,
      {| model := fst (fit_pair df);
         scaler := Some (snd (fit_pair df));
         model_file := Stored (fst (fit_pair df));
         scaler_file := Stored (Some (snd (fit_pair df)));
         np_random := g;
         log := log st ++ [warning_model_not_found; info_training_started;
                           info_training_completed (mae ms) (r2_score_ ms)]
      |})) \/
  (exists msg m',
     load_attempt st = Raise (LoadError msg) /\
     load_model st =
     (Ok false,
      {| model := m'; scaler := scaler st; model_file := model_file st;
         scaler_file := scaler_file st; np_random := np_random st;
         log := log st ++ [error_loading_model (LoadError msg)] |})).
Proof.
  destruct train_model_run as (df & g & Hlen & Hgen & Htrain).
  rewrite load_model_run. unfold load_attempt. cbv zeta.
  assert (Habsent : forall st1 : state,
            log st1 = log st ->
            exists ms,
              (logger warning_model_not_found;; train_model;; mret true) st1
              = (Ok true,
                 {| model := fst (fit_pair df);
                    scaler := Some (snd (fit_pair df));
                    model_file := Stored (fst (fit_pair df));
                    scaler_file := Stored (Some (snd (fit_pair df)));
                    np_random := g;
                    log := log st ++
                           [warning_model_not_found; info_training_started;
                            info_training_completed (mae ms) (r2_score_ ms)]
                 |})).
  { intros st1 Hlog. rewrite bind_run. unfold logger at 1, modify at 1.
    rewrite bind_run.
    match goal with |- context [train_model ?s] =>
      destruct (Htrain s) as [ms Hms]; rewrite Hms end.
    exists ms. rewrite ret_run. simpl. rewrite Hlog, <- app_assoc.
    reflexivity. }
  destruct (model_file st) as [|msg|m] eqn:Em; simpl.
  - right; left. destruct (Habsent st eq_refl) as [ms Hms].
    exists df, g, ms. auto.
  - right; right. exists msg, (model st). split; [reflexivity|].
    rewrite bind_run. unfold logger, modify. rewrite ret_run. simpl.
    rewrite Em. reflexivity.
  - destruct (scaler_file st) as [|msg|s] eqn:Es; simpl.
    + right; left. destruct (Habsent (set_model m st) eq_refl) as [ms Hms].
      exists df, g, ms. auto.
    + right; right. exists msg, m. split; [reflexivity|].
      rewrite bind_run. unfold logger, modify. rewrite ret_run. simpl.
      rewrite Em, Es. reflexivity.
    + left. exists m, s. auto.
Qed.

Lemma predict_power_output_unfitted lat lon area tilt az eff w (st : state) :
  scaler st = None ->
  predict_power_output lat lon area tilt az eff w st =
  (load_model ≫= fun _ => predict_body lat lon area tilt az eff w) st.
Proof.
  intros Hs. unfold predict_power_output, try_except, check_is_fitted.
  rewrite !bind_run. unfold gets at 1. rewrite Hs. unfold raise.
  rewrite bind_run. destruct (load_model st) as [[b|e] st']; reflexivity.
Qed.



End Store.

(** ** Claims on the model store *)

Section StoreClaims.

Context `{NP : Numpy} `{SK : Sklearn}.

Local Open Scope float_scope.



End StoreClaims.





(** C5, the code at a failing input: a process holding a fitted pair finds
    another run's model blob next to a corrupt scaler blob.  [load_model]
    returns false, yet the model in memory is now the one from disk while
    the scaler is the old one: one of the two was loaded. *)
Lemma load_model_half_loaded :
  let st' := snd (load_model Sample.stale_pair) in
  fst (load_model Sample.stale_pair) = Ok false /\
  model st' = Sample.forest_zero /\
  scaler st' = scaler Sample.stale_pair /\
  model st' <> model Sample.stale_pair /\
  predict (model Sample.stale_pair) [] = Ok 11%float /\
  predict (model st') [] = Ok 0%float.
Proof.
  cbv zeta. repeat split; try reflexivity.
  intros H.
  apply (f_equal (fun m => match predict m [] with
                           | Ok v => PrimFloat.eqb v 0
                           | Raise _ => false
                           end)) in H.
  vm_compute in H. discriminate.
Qed.

(** ** The API view's timeframe scaling *)

Section Timeframe.

Context `{NP : Numpy} `{SK : Sklearn}.

Local Open Scope float_scope.

(** C10: the predictor is called without the timeframe and its output is
    the per-day estimate; the view scales it afterwards.  For one predictor
    output, the totals the view stores for the daily, weekly and monthly
    timeframes satisfy weekly = 7 * daily and monthly = 30 * daily. *)
Theorem timeframe_scaling (data : PredictionInput)
    (weather_data : gmap string float) (st st' : state)
    (output confidence : float) :
  predict_power_output (in_latitude data) (in_longitude data)
    (in_surface_area data) (in_tilt_angle data) (in_azimuth_angle data)
    (in_panel_efficiency data) weather_data st
  = (Ok (output, confidence), st') ->
  exists daily_total weekly_total monthly_total,
    (forall tf,
       PredictPowerView_post (with_timeframe tf data) weather_data st =
       (HTTP_201_CREATED
          {| sp_timeframe := tf;
             predicted_output :=
               match tf with
               | daily => daily_total
               | weekly => weekly_total
               | monthly => monthly_total
               end;
             confidence_score := confidence;
             sp_weather_data := weather_data |}, st')) /\
    daily_total = output /\
    weekly_total = 7 * daily_total /\
    monthly_total = 30 * daily_total.
Proof.
  intros Hrun. exists output, (output * 7), (output * 30).
  split; [|split; [reflexivity | split; apply fmul_comm]].
  intros tf. unfold PredictPowerView_post. simpl. rewrite Hrun.
  destruct tf; reflexivity.
Qed.

End Timeframe.

(** Witness of C10: the documented scenario on a fitted process. *)
Lemma timeframe_scaling_witness :
  exists output confidence daily_total weekly_total monthly_total,
    predict_power_output 37.7749 (-122.4194) 50.0 30.0 180.0 0.20
      Sample.weather Sample.ready
    = (Ok (output, confidence), Sample.ready) /\
    (forall tf,
       PredictPowerView_post (Sample.request tf) Sample.weather Sample.ready =
       (HTTP_201_CREATED
          {| sp_timeframe := tf;
             predicted_output :=
               match tf with
               | daily => daily_total
               | weekly => weekly_total
               | monthly => monthly_total
               end;
             confidence_score := confidence;
             sp_weather_data := Sample.weather |}, Sample.ready)) /\
    weekly_total = (7 * daily_total)%float /\
    monthly_total = (30 * daily_total)%float.
Proof.
  assert (Hrun :
    predict_power_output 37.7749 (-122.4194) 50.0 30.0 180.0 0.20
      Sample.weather Sample.ready
    = (Ok (11.074999999999999, 0.90293453724604966)%float, Sample.ready))
    by reflexivity.
  destruct (timeframe_scaling (Sample.request daily) Sample.weather
              Sample.ready Sample.ready _ _ Hrun)
    as (d & w & m & Hpost & _ & Hw & Hm).
  exists 11.074999999999999%float, 0.90293453724604966%float, d, w, m.
  split; [exact Hrun|]. split; [exact Hpost|]. split; assumption.
Defined.

(** Witness of C2: the documented scenario on a fitted process. *)
Lemma predict_power_output_bounds_witness :
  usable Sample.ready /\
  exists output confidence,
    predict_power_output 37.7749 (-122.4194) 50.0 30.0 180.0 0.20
      Sample.weather Sample.ready = (Ok (output, confidence), Sample.ready) /\
    (0 <=? output)%float = true /\
    (0 <=? confidence)%float = true /\ (confidence <=? 1)%float = true.
Proof.
  assert (Hu : usable Sample.ready).
  { split; [eexists; reflexivity|]. intros x. eexists. reflexivity. }
  split; [exact Hu|].
  destruct (predict_power_output_bounds 37.7749 (-122.4194) 50.0 30.0 180.0
              0.20 Sample.weather Sample.ready Hu)
    as (o & c & x & _ & Hrun & Ho & Hc0 & Hc1 & _).
  exists o, c. auto.
Defined.

(** Witness of C9: the documented scenario, called twice. *)
Lemma predict_power_output_pure_witness :
  usable Sample.ready /\
  exists output confidence,
    predict_power_output 37.7749 (-122.4194) 50.0 30.0 180.0 0.20
      Sample.weather Sample.ready = (Ok (output, confidence), Sample.ready) /\
    predict_power_output 37.7749 (-122.4194) 50.0 30.0 180.0 0.20
      Sample.weather
      (snd (predict_power_output 37.7749 (-122.4194) 50.0 30.0 180.0 0.20
              Sample.weather Sample.ready))
    = (Ok (output, confidence), Sample.ready).
Proof.
  assert (Hu : usable Sample.ready).
  { split; [eexists; reflexivity|]. intros x. eexists. reflexivity. }
  split; [exact Hu|].
  exact (predict_power_output_pure 37.7749 (-122.4194) 50.0 30.0 180.0 0.20
           Sample.weather Sample.ready Hu).
Defined.

(** ** The definitions on concrete inputs *)

Section Runs.

Local Open Scope float_scope.

Example tilt_range_run :
  tilt_range = [0; 5; 10; 15; 20; 25; 30; 35; 40; 45; 50; 55; 60]%Z.
Proof. reflexivity. Qed.

Example py_max_nan : py_max 0 nan = 0 /\ py_max 0 (-3) = 0 /\ py_max 0 2 = 2.
Proof. repeat split. Qed.

Example predict_ready :
  fst (predict_power_output 37.7749 (-122.4194) 50.0 30.0 180.0 0.20
         Sample.weather Sample.ready)
  = Ok (11.074999999999999, 0.90293453724604966).
Proof. reflexivity. Qed.

(** Trees that all predict 0: the mean is 0, the ratio is [nan], the
    confidence is 0. *)
Example predict_mean_zero :
  fst (predict_power_output 37.7749 (-122.4194) 50.0 30.0 180.0 0.20
         Sample.weather Sample.ready_zero)
  = Ok (0, 0).
Proof. reflexivity. Qed.

(** A regressor without [estimators_], predicting below zero. *)
Example predict_plain :
  fst (predict_power_output 37.7749 (-122.4194) 50.0 30.0 180.0 0.20
         Sample.weather Sample.ready_plain)
  = Ok (0, 0.8).
Proof. reflexivity. Qed.

Example predict_no_weather :
  fst (predict_power_output 37.7749 (-122.4194) 50.0 30.0 180.0 0.20
         ∅ Sample.ready)
  = fst (predict_power_output 37.7749 (-122.4194) 50.0 30.0 180.0 0.20
           weather_defaults Sample.ready).
Proof. reflexivity. Qed.

Example find_optimal_ready :
  fst (find_optimal_configuration 37.7749 (-122.4194) 50.0 0.20
         Sample.weather Sample.ready)
  = Ok (60%Z, 0%Z, 11.15).
Proof. vm_compute. reflexivity. Qed.

(** A stub predictor that records its calls and returns a constant. *)
Example find_optimal_constant_stub :
  find_optimal_with
    (fun tilt azimuth calls => (Ok (4.5, 0.8), calls ++ [(tilt, azimuth)]))
    []
  = (Ok (0%Z, 0%Z, 4.5), grid).
Proof. vm_compute. reflexivity. Qed.

Example find_optimal_corrupt :
  fst (find_optimal_configuration 37.7749 (-122.4194) 50.0 0.20
         Sample.weather Sample.corrupt)
  = Raise NotFittedError.
Proof. reflexivity. Qed.

Example post_weekly :
  fst (PredictPowerView_post (Sample.request weekly) Sample.weather
         Sample.ready)
  = HTTP_201_CREATED
      {| sp_timeframe := weekly; predicted_output := 77.524999999999991;
         confidence_score := 0.90293453724604966;
         sp_weather_data := Sample.weather |}.
Proof. reflexivity. Qed.

Example load_model_corrupt_log :
  fst (load_model Sample.corrupt) = Ok false /\
  log (snd (load_model Sample.corrupt))
  = [error_loading_model (LoadError "invalid load key")].
Proof. split; reflexivity. Qed.

(** A fresh process that finds a model blob and a corrupt scaler blob:
    the load reports failure, the model came from disk, the scaler stays
    unfitted and the predictor raises. *)
Example load_model_half_corrupt :
  fst (load_model Sample.half_corrupt) = Ok false /\
  model (snd (load_model Sample.half_corrupt)) = Sample.forest_a /\
  scaler (snd (load_model Sample.half_corrupt)) = None /\
  fst (predict_power_output 37.7749 (-122.4194) 50.0 30.0 180.0 0.20
         Sample.weather Sample.half_corrupt) = Raise NotFittedError.
Proof. repeat split. Qed.

End Runs.

(** * Further properties of the program *)

(** ** Training and loading together *)

Section TrainAndLoad.

Context `{NP : Numpy} `{SK : Sklearn}.

Local Open Scope float_scope.

(** A training run does not depend on the state it starts from. *)
Lemma train_model_result :
  exists (m : Regressor) (s : row -> row) (g : rng) (ms : metrics),
    regressor_fitted m /\
    forall st : state,
      train_model st =
      (Ok ms,
       {| model := m; scaler := Some s;
          model_file := Stored m; scaler_file := Stored (Some s);
          np_random := g;
          log := log st ++ [info_training_started;
                            info_training_completed (mae ms) (r2_score_ ms)]
       |}).
Proof.
  destruct (generate_synthetic_data_run default_n_samples)
    as (df & g & Hgen).
  destruct (prepare_features df) as [X y] eqn:EX.
  destruct (train_test_split X y) as [[[X_train X_test] y_train] y_test]
    eqn:Esplit.
  eexists _, _, g, {| mae := _; r2_score_ := _ |}.
  split; [apply fitted_forest_fitted|].
  intros st. unfold train_model.
  rewrite bind_run. unfold logger at 1, modify at 1.
  rewrite bind_run, Hgen, EX, Esplit.
  rewrite bind_run. unfold modify at 1.
  unfold scaler_transform. rewrite !bind_run. unfold gets at 1. simpl.
  rewrite !bind_run. unfold gets at 1. unfold modify at 1. simpl.
  rewrite !bind_run. unfold modify at 1. simpl.
  unfold model_predict. rewrite !bind_run. unfold gets at 1. simpl.
  rewrite map_M_lift_Ok.
  unfold logger, modify, gets, mbind, M_bind, mret, M_ret. simpl.
  unfold set_scaler_file, set_model_file, set_model, set_scaler,
    set_np_random. simpl.
  rewrite <- app_assoc. reflexivity.
Qed.

(** With the blobs of the pair in memory on disk, loading changes
    nothing. *)
Lemma load_model_in_sync (st : state) :
  model_file st = Stored (model st) ->
  scaler_file st = Stored (scaler st) ->
  load_model st = (Ok true, st).
Proof.
  intros Hm Hs. rewrite load_model_run. cbv zeta. rewrite Hm, Hs. simpl.
  destruct st; reflexivity.
Qed.


(** X2: what [train_model] dumps, [load_model] loads back: right after a
    training run [load_model] returns true and leaves model, scaler, files,
    generator and log as they are. *)
Theorem load_model_after_train_model (st : state) :
  load_model (snd (train_model st)) = (Ok true, snd (train_model st)).
Proof.
  destruct train_model_result as (m & s & g & ms & _ & Hrun).
  rewrite Hrun. simpl. apply load_model_in_sync; reflexivity.
Qed.

(** X3: once [load_model] has returned true, calling it again returns
    true and changes nothing. *)
Theorem load_model_idempotent (st st' : state) :
  load_model st = (Ok true, st') ->
  load_model st' = (Ok true, st').
Proof.
  intros Hload.
  destruct (load_model_cases st)
    as [(m & s & Em & Es & _ & H) | [(df & g & ms & _ & _ & _ & H)
       | (msg & m' & _ & H)]];
    rewrite H in Hload; try discriminate; injection Hload as <-;
    apply load_model_in_sync; simpl; auto.
Qed.

Lemma predict_body_unfitted lat lon area tilt az eff w (st : state) :
  scaler st = None ->
  predict_body lat lon area tilt az eff w st = (Raise NotFittedError, st).
Proof.
  intros Hs. unfold predict_body, scaler_transform, gets.
  rewrite !bind_run, Hs. reflexivity.
Qed.

(** An unfitted scaler and a load that fails: the predictor raises. *)
Lemma predict_power_output_after_failed_load lat lon area tilt az eff w
    (st : state) (msg : string) :
  scaler st = None ->
  load_attempt st = Raise (LoadError msg) ->
  exists m',
    predict_power_output lat lon area tilt az eff w st =
    (Raise NotFittedError,
     {| model := m'; scaler := None; model_file := model_file st;
        scaler_file := scaler_file st; np_random := np_random st;
        log := log st ++ [error_loading_model (LoadError msg)] |}).
Proof.
  intros Hs Hatt.
  destruct (load_model_cases st)
    as [(m & s & _ & _ & Hatt' & _) | [(df & g & ms & Hatt' & _)
       | (msg' & m' & Hatt' & H)]]; try congruence.
  assert (msg' = msg) as -> by congruence.
  exists m'. rewrite (predict_power_output_unfitted _ _ _ _ _ _ _ _ Hs).
  rewrite bind_run, H, Hs. apply predict_body_unfitted. reflexivity.
Qed.

(** X4: when the scaler is unfitted and a blob fails to load for a reason
    other than absence, [predict_power_output] raises [NotFittedError]
    after one load attempt: one error record is logged, the scaler stays
    unfitted and files and generator are untouched, so the next call
    attempts the load again. *)
Theorem predict_power_output_load_failure
    (latitude longitude surface_area tilt_angle azimuth_angle
     panel_efficiency : float) (weather_data : gmap string float)
    (st : state) (msg : string) :
  scaler st = None ->
  load_attempt st = Raise (LoadError msg) ->
  exists st',
    predict_power_output latitude longitude surface_area tilt_angle
      azimuth_angle panel_efficiency weather_data st
    = (Raise NotFittedError, st') /\
    scaler st' = None /\
    load_attempt st' = Raise (LoadError msg) /\
    model_file st' = model_file st /\ scaler_file st' = scaler_file st /\
    np_random st' = np_random st /\
    log st' = log st ++ [error_loading_model (LoadError msg)].
Proof.
  intros Hs Hatt.
  destruct (predict_power_output_after_failed_load latitude longitude
              surface_area tilt_angle azimuth_angle panel_efficiency
              weather_data st msg Hs Hatt) as [m' H].
  eexists. split; [exact H|]. simpl.
  split; [reflexivity|]. split; [exact Hatt|].
  repeat (split; [reflexivity|]). reflexivity.
Qed.

Lemma map_M_first_raises {S A B} (f : A -> M S B) (x : A) (xs : list A)
    (s s' : S) (e : exn) :
  f x s = (Raise e, s') -> map_M f (x :: xs) s = (Raise e, s').
Proof. intros H. simpl. rewrite bind_run, H. reflexivity. Qed.

(** X5: in that situation [find_optimal_configuration] fails fast: it
    raises the [NotFittedError] of its first predictor call, with the single
    error record of that call in the log; no further grid point is tried. *)
Theorem find_optimal_configuration_fail_fast
    (latitude longitude surface_area panel_efficiency : float)
    (weather_data : gmap string float) (st : state) (msg : string) :
  scaler st = None ->
  load_attempt st = Raise (LoadError msg) ->
  exists st',
    find_optimal_configuration latitude longitude surface_area
      panel_efficiency weather_data st = (Raise NotFittedError, st') /\
    scaler st' = None /\
    log st' = log st ++ [error_loading_model (LoadError msg)].
Proof.
  intros Hs Hatt.
  destruct (predict_power_output_after_failed_load latitude longitude
              surface_area (float_of_Z 0) (float_of_Z 0) panel_efficiency
              weather_data st msg Hs Hatt) as [m' H].
  eexists. split.
  - unfold find_optimal_configuration. rewrite find_optimal_with_sweep.
    assert (Hg : grid = (0, 0)%Z :: tl grid) by reflexivity.
    rewrite Hg.
    match goal with |- context [map_M ?f (?x :: ?xs) st] =>
      rewrite (map_M_first_raises f x xs st _ NotFittedError H) end.
    reflexivity.
  - simpl. auto.
Qed.

End TrainAndLoad.

(** ** The optimiser on a fitted model, and on any predictor *)

Section OptimiserMore.

Context `{NP : Numpy} `{SK : Sklearn}.

Local Open Scope float_scope.

Lemma map_M_pure {S A B} (f : A -> M S B) (g : A -> B) (xs : list A) (s : S) :
  (forall x, f x s = (Ok (g x), s)) ->
  map_M f xs s = (Ok (map g xs), s).
Proof.
  intros Hf. induction xs as [|x xs IH]; simpl; [reflexivity|].
  rewrite bind_run, Hf, bind_run, IH. reflexivity.
Qed.

(** The sweep over a usable model: every call returns and none changes the
    state. *)
Lemma sweep_usable lat lon area eff w (st : state) :
  usable st ->
  exists g : Z * Z -> float * float,
    (forall p, predictor_at lat lon area eff w p st = (Ok (g p), st)) /\
    (forall p, is_output (fst (g p))) /\
    find_optimal_configuration lat lon area eff w st =
    (Ok (fold_left (fun b xr => keep_best b (fst xr) (fst (snd xr)))
                   (zip grid (map g grid)) (0%Z, 0%Z, 0)), st).
Proof.
  intros Hu.
  set (g := fun p : Z * Z =>
              match fst (predictor_at lat lon area eff w p st) with
              | Ok r => r
              | Raise _ => (0, 0)
              end).
  assert (Hg : forall p, predictor_at lat lon area eff w p st
                         = (Ok (g p), st)).
  { intros p. unfold g, predictor_at.
    destruct (predict_power_output_usable lat lon area
                (float_of_Z (fst p)) (float_of_Z (snd p)) eff w st Hu)
      as (f & v & _ & _ & H).
    rewrite H. reflexivity. }
  exists g. split; [exact Hg|]. split.
  - intros p. pose proof (Hg p) as H. unfold predictor_at in H.
    apply predict_power_output_is_output in H. tauto.
  - unfold find_optimal_configuration. rewrite find_optimal_with_sweep.
    change (fun p : Z * Z =>
              predict_power_output lat lon area (float_of_Z (fst p))
                (float_of_Z (snd p)) eff w)
      with (predictor_at lat lon area eff w).
    rewrite (map_M_pure _ g _ _ Hg). reflexivity.
Qed.

(** The selected output dominates the output at every grid point. *)
Lemma sweep_usable_dominates lat lon area eff w (st : state) :
  usable st ->
  exists bt ba bo,
    find_optimal_configuration lat lon area eff w st = (Ok (bt, ba, bo), st) /\
    (bt, ba) ∈ grid /\
    forall t a, (t, a) ∈ grid ->
      exists o c,
        predict_power_output lat lon area (float_of_Z t) (float_of_Z a)
          eff w st = (Ok (o, c), st) /\
        (o <=? bo) = true.
Proof.
  intros Hu. destruct (sweep_usable lat lon area eff w st Hu)
    as (g & Hg & Hout & Hrun).
  destruct (keep_best_fold (zip grid (map g grid))) as (_ & Hmax & Hfirst).
  { apply Forall_lookup_2. intros j [p r] Hj.
    apply lookup_zip_with_Some in Hj as (x & y & [= -> ->] & _ & Hy).
    apply list_lookup_fmap_Some in Hy as (p' & -> & _). simpl. apply Hout. }
  destruct (fold_left _ (zip grid (map g grid)) _) as [[bt ba] bo].
  cbn [fst snd] in Hmax, Hfirst.
  exists bt, ba, bo. split; [exact Hrun|]. split.
  - destruct Hfirst as [[Hinit _] | (i & r & Hi & _)].
    + injection Hinit as -> -> _. apply (list_elem_of_lookup_2 _ 0%nat).
      reflexivity.
    + apply lookup_zip_with_Some in Hi as (x & y & [= <- _] & Hx & _).
      eapply list_elem_of_lookup_2; eauto.
  - intros t a Hin. apply list_elem_of_lookup_1 in Hin as [j Hj].
    pose proof (Hg (t, a)) as Hp. unfold predictor_at in Hp. simpl in Hp.
    destruct (g (t, a)) as [o c] eqn:Eg. exists o, c.
    split; [exact Hp|].
    apply (Hmax j ((t, a), (o, c))).
    apply lookup_zip_with_Some. exists (t, a), (o, c).
    split; [reflexivity|]. split; [exact Hj|].
    apply list_lookup_fmap_Some. exists (t, a). rewrite Eg. auto.
Qed.

(** X6: on a usable model [find_optimal_configuration] returns, leaves the
    state unchanged, answers with a point of the grid, and its best output
    is at least the predictor's output at every grid point, so in
    particular at tilt 0 and azimuth 0. *)
Theorem find_optimal_configuration_dominates
    (latitude longitude surface_area panel_efficiency : float)
    (weather_data : gmap string float) (st : state) :
  usable st ->
  exists best_tilt best_azimuth best_output,
    find_optimal_configuration latitude longitude surface_area
      panel_efficiency weather_data st
    = (Ok (best_tilt, best_azimuth, best_output), st) /\
    (best_tilt, best_azimuth) ∈ grid /\
    (forall tilt azimuth, (tilt, azimuth) ∈ grid ->
       exists output confidence,
         predict_power_output latitude longitude surface_area
           (float_of_Z tilt) (float_of_Z azimuth) panel_efficiency
           weather_data st = (Ok (output, confidence), st) /\
         (output <=? best_output) = true) /\
    (exists output confidence,
       predict_power_output latitude longitude surface_area 0 0
         panel_efficiency weather_data st = (Ok (output, confidence), st) /\
       (output <=? best_output) = true).
Proof.
  intros Hu.
  destruct (sweep_usable_dominates latitude longitude surface_area
              panel_efficiency weather_data st Hu)
    as (bt & ba & bo & Hrun & Hin & Hdom).
  exists bt, ba, bo. split; [exact Hrun|]. split; [exact Hin|].
  split; [exact Hdom|].
  apply (Hdom 0%Z 0%Z). apply (list_elem_of_lookup_2 _ 0%nat). reflexivity.
Qed.



End OptimiserMore.

(** Witness of X6: the fitted sample process. *)
Lemma find_optimal_configuration_dominates_witness :
  usable Sample.ready /\
  exists best_tilt best_azimuth best_output,
    find_optimal_configuration 37.7749 (-122.4194) 50.0 0.20
      Sample.weather Sample.ready
    = (Ok (best_tilt, best_azimuth, best_output), Sample.ready) /\
    (best_tilt, best_azimuth) ∈ grid.
Proof.
  assert (Hu : usable Sample.ready).
  { split; [eexists; reflexivity|]. intros x. eexists. reflexivity. }
  split; [exact Hu|].
  destruct (find_optimal_configuration_dominates 37.7749 (-122.4194) 50.0
              0.20 Sample.weather Sample.ready Hu)
    as (bt & ba & bo & Hrun & Hin & _).
  exists bt, ba, bo. auto.
Defined.


(** ** Features, datasets and the callers of the model *)

Section FeaturesAndCallers.

Context `{NP : Numpy} `{SK : Sklearn}.

Local Open Scope float_scope.

(** X8: training and inference agree on the feature schema: the predictor's
    input built from an example's own fields is that example's training
    row, eleven columns in the same order; [prepare_features] returns one
    such row and one label per example. *)
Theorem feature_schema_agreement (data : list TrainingExample) :
  (forall ex,
     input_data (latitude ex) (longitude ex) (surface_area ex)
       (tilt_angle ex) (azimuth_angle ex) (panel_efficiency ex)
       (weather_of_example ex) = feature_row ex) /\
  length (fst (prepare_features data)) = length data /\
  length (snd (prepare_features data)) = length data /\
  Forall (fun r : row => length r = 11%nat) (fst (prepare_features data)) /\
  (forall i ex, data !! i = Some ex ->
     fst (prepare_features data) !! i = Some (feature_row ex) /\
     snd (prepare_features data) !! i = Some (power_output ex)).
Proof.
  split; [intros ex; reflexivity|].
  unfold prepare_features. simpl.
  split; [apply length_map|]. split; [apply length_map|]. split.
  - apply Forall_forall. intros r Hr.
    change (r ∈ feature_row <$> data) in Hr.
    apply list_elem_of_fmap in Hr as (ex & -> & _). reflexivity.
  - intros i ex Hi.
    change (map feature_row data) with (feature_row <$> data).
    change (map power_output data) with (power_output <$> data).
    rewrite !list_lookup_fmap, Hi. auto.
Qed.

Lemma generate_loop_add n k :
  forall data (st : state),
    generate_loop (n + k) data st =
    (generate_loop n data ≫= generate_loop k) st.
Proof.
  induction n as [|n IH]; intros data st; simpl.
  - reflexivity.
  - rewrite !bind_run. destruct (generate_example st) as [[ex|e] s1]; auto.
Qed.

Lemma generate_loop_extends k :
  forall data (st st' : state) data',
    generate_loop k data st = (Ok data', st') ->
    exists new, data' = data ++ new /\ length new = k.
Proof.
  induction k as [|k IH]; intros data st st' data'; simpl.
  - rewrite ret_run. intros [= <- _]. exists []. rewrite app_nil_r. auto.
  - intros H. apply bind_Ok_inv in H as (ex & s & _ & H).
    apply IH in H as (new & -> & Hlen). exists (ex :: new).
    rewrite <- app_assoc. simpl. auto.
Qed.

(** X9: a larger dataset starts with the smaller one: the first [n] rows
    of [generate_synthetic_data(n + k)] are the rows of
    [generate_synthetic_data(n)], whatever the states of the two calls; and
    a call changes the generator of [np.random] only. *)
Theorem generate_synthetic_data_prefix (n k : nat) (st1 st2 : state) :
  exists small large g,
    generate_synthetic_data n st1 = (Ok small, set_np_random g st1) /\
    fst (generate_synthetic_data (n + k) st2) = Ok large /\
    small = take n large.
Proof.
  destruct (generate_synthetic_data_run n) as (small & g & Hsmall).
  destruct (generate_synthetic_data_run (n + k)) as (large & g' & Hlarge).
  exists small, large, g. split; [apply Hsmall|].
  split; [rewrite Hlarge; reflexivity|].
  specialize (Hsmall st1). specialize (Hlarge st1).
  unfold generate_synthetic_data in Hsmall, Hlarge.
  rewrite bind_run in Hsmall, Hlarge. unfold modify in Hsmall, Hlarge.
  rewrite generate_loop_add, bind_run, Hsmall in Hlarge.
  apply generate_loop_length in Hsmall. simpl in Hsmall.
  apply generate_loop_extends in Hlarge as (new & -> & _).
  rewrite take_app_length'; auto.
Qed.

(** X10: the [retrain_model] command never takes its failure branch:
    training returns, the sample prediction that follows returns with
    output >= 0 and confidence in [0, 1], and that prediction neither loads
    nor trains again: the state is the one training left. *)
Theorem retrain_handle_succeeds (st : state) :
  exists ms output confidence,
    retrain_handle st
    = (Some (ms, (output, confidence)), snd (train_model st)) /\
    fst (train_model st) = Ok ms /\
    usable (snd (train_model st)) /\
    (0 <=? output) = true /\ in_closed 0 1 confidence = true.
Proof.
  destruct train_model_result as (m & s & g & ms & Hm & Hrun).
  assert (Hu : usable (snd (train_model st))).
  { rewrite Hrun. split; simpl; eauto. }
  destruct (predict_power_output_usable 37.7749 (-122.4194) 50.0 30.0 180.0
              0.20 test_weather _ Hu) as (f & v & _ & _ & Hp).
  eexists ms, _, _. split; [|split; [rewrite Hrun; reflexivity|]].
  - unfold retrain_handle. rewrite bind_run.
    destruct (train_model st) as [r st'] eqn:Et.
    rewrite Hrun in Et. injection Et as <- <-.
    simpl in Hp. rewrite bind_run, Hp, ret_run.
    reflexivity.
  - split; [exact Hu|].
    split; [apply py_max_0_nonneg | apply clamp_unit_interval].
Qed.

(** X11: [PredictPowerView.post] always answers.  On a usable model it
    answers 201 with the requested timeframe, the weather reading it was
    given and a confidence in [0, 1], and leaves the state unchanged; with
    an unfitted scaler and a blob that fails to load it answers 500 after
    one logged load error. *)
Theorem PredictPowerView_post_responses (data : PredictionInput)
    (weather_data : gmap string float) (st : state) :
  (usable st ->
   exists prediction,
     PredictPowerView_post data weather_data st
     = (HTTP_201_CREATED prediction, st) /\
     sp_timeframe prediction = in_timeframe data /\
     sp_weather_data prediction = weather_data /\
     in_closed 0 1 (confidence_score prediction) = true /\
     (in_timeframe data = daily ->
      (0 <=? predicted_output prediction) = true)) /\
  (forall msg,
     scaler st = None -> load_attempt st = Raise (LoadError msg) ->
     exists st',
       PredictPowerView_post data weather_data st
       = (HTTP_500_INTERNAL_SERVER_ERROR, st') /\
       log st' = log st ++ [error_loading_model (LoadError msg)]).
Proof.
  split.
  - intros Hu.
    destruct (predict_power_output_usable (in_latitude data)
                (in_longitude data) (in_surface_area data)
                (in_tilt_angle data) (in_azimuth_angle data)
                (in_panel_efficiency data) weather_data st Hu)
      as (f & v & _ & _ & Hp).
    eexists. unfold PredictPowerView_post. rewrite Hp.
    split; [reflexivity|]. simpl.
    split; [reflexivity|]. split; [reflexivity|].
    split; [apply clamp_unit_interval|].
    intros ->. simpl. apply py_max_0_nonneg.
  - intros msg Hs Hatt.
    destruct (predict_power_output_after_failed_load (in_latitude data)
                (in_longitude data) (in_surface_area data)
                (in_tilt_angle data) (in_azimuth_angle data)
                (in_panel_efficiency data) weather_data st msg Hs Hatt)
      as [m' Hp].
    eexists. unfold PredictPowerView_post. rewrite Hp.
    split; reflexivity.
Qed.

(** X12: [RecommendOptimalView.post] on a usable model, for a current
    configuration that is a grid point (as the defaults, tilt 30 and
    azimuth 180, are): it answers 201 without changing the state, the
    recommended angles are a grid point, the maximum it reports is at least
    the output of the current configuration, and the improvement is 0.0
    when that output is not positive. *)
Theorem RecommendOptimalView_post_grid_config (data : RecommendationInput)
    (weather_data : gmap string float) (st : state) (tilt azimuth : Z) :
  usable st ->
  (tilt, azimuth) ∈ grid ->
  data_get (rec_current_tilt data) 30 = float_of_Z tilt ->
  data_get (rec_current_azimuth data) 180 = float_of_Z azimuth ->
  exists optimal_config current_output confidence,
    RecommendOptimalView_post data weather_data st
    = (RECOMMEND_201_CREATED optimal_config, st) /\
    (optimal_tilt optimal_config, optimal_azimuth optimal_config) ∈ grid /\
    predict_power_output (rec_latitude data) (rec_longitude data)
      (rec_surface_area data) (float_of_Z tilt) (float_of_Z azimuth)
      (rec_panel_efficiency data) weather_data st
    = (Ok (current_output, confidence), st) /\
    (current_output <=? max_predicted_output optimal_config) = true /\
    improvement_percentage optimal_config
    = improvement (max_predicted_output optimal_config) current_output /\
    ((0 <? current_output) = false ->
     improvement_percentage optimal_config = 0.0).
Proof.
  intros Hu Hin Ht Ha.
  destruct (sweep_usable_dominates (rec_latitude data) (rec_longitude data)
              (rec_surface_area data) (rec_panel_efficiency data)
              weather_data st Hu)
    as (bt & ba & bo & Hrun & Hbest & Hdom).
  destruct (Hdom tilt azimuth Hin) as (o & c & Hp & Hle).
  eexists _, o, c. split.
  - unfold RecommendOptimalView_post. rewrite bind_run, Hrun.
    rewrite Ht, Ha, bind_run, Hp, ret_run. reflexivity.
  - simpl. split; [exact Hbest|]. split; [exact Hp|].
    split; [exact Hle|]. split; [reflexivity|].
    intros Hz. unfold improvement. rewrite Hz. reflexivity.
Qed.

End FeaturesAndCallers.

(** Witness of X12: the view's defaults on the fitted sample process. *)
Lemma RecommendOptimalView_post_grid_config_witness :
  usable Sample.ready /\
  (30%Z, 180%Z) ∈ grid /\
  exists optimal_config,
    RecommendOptimalView_post
      {| rec_latitude := 37.7749; rec_longitude := -122.4194;
         rec_surface_area := 50.0; rec_panel_efficiency := 0.20;
         rec_current_tilt := None; rec_current_azimuth := None |}
      Sample.weather Sample.ready
    = (RECOMMEND_201_CREATED optimal_config, Sample.ready).
Proof.
  assert (Hu : usable Sample.ready).
  { split; [eexists; reflexivity|]. intros x. eexists. reflexivity. }
  assert (Hin : (30%Z, 180%Z) ∈ grid).
  { apply (list_elem_of_lookup_2 _ 162%nat). reflexivity. }
  split; [exact Hu|]. split; [exact Hin|].
  destruct (RecommendOptimalView_post_grid_config
              {| rec_latitude := 37.7749; rec_longitude := -122.4194;
                 rec_surface_area := 50.0; rec_panel_efficiency := 0.20;
                 rec_current_tilt := None; rec_current_azimuth := None |}
              Sample.weather Sample.ready 30%Z 180%Z Hu Hin eq_refl eq_refl)
    as (cfg & o & c & Hrun & _).
  exists cfg. exact Hrun.
Defined.

(** Witness of X3: the fitted sample process, loaded twice. *)
Lemma load_model_idempotent_witness :
  load_model Sample.ready = (Ok true, Sample.ready) /\
  load_model Sample.ready = (Ok true, Sample.ready).
Proof.
  assert (H : load_model Sample.ready = (Ok true, Sample.ready))
    by reflexivity.
  split; [exact H|].
  exact (load_model_idempotent Sample.ready Sample.ready H).
Defined.

(** Witness of X4: a fresh process that finds a corrupt model blob. *)
Lemma predict_power_output_load_failure_witness :
  scaler Sample.corrupt = None /\
  load_attempt Sample.corrupt = Raise (LoadError "invalid load key") /\
  exists st',
    predict_power_output 37.7749 (-122.4194) 50.0 30.0 180.0 0.20
      Sample.weather Sample.corrupt = (Raise NotFittedError, st') /\
    scaler st' = None.
Proof.
  split; [reflexivity|]. split; [reflexivity|].
  destruct (predict_power_output_load_failure 37.7749 (-122.4194) 50.0 30.0
              180.0 0.20 Sample.weather Sample.corrupt "invalid load key"
              eq_refl eq_refl) as (st' & Hrun & Hs & _).
  exists st'. auto.
Defined.

(** Witness of X5: the same process asked for a recommendation. *)
Lemma find_optimal_configuration_fail_fast_witness :
  scaler Sample.corrupt = None /\
  load_attempt Sample.corrupt = Raise (LoadError "invalid load key") /\
  exists st',
    find_optimal_configuration 37.7749 (-122.4194) 50.0 0.20
      Sample.weather Sample.corrupt = (Raise NotFittedError, st') /\
    log st' = [error_loading_model (LoadError "invalid load key")].
Proof.
  split; [reflexivity|]. split; [reflexivity|].
  destruct (find_optimal_configuration_fail_fast 37.7749 (-122.4194) 50.0
              0.20 Sample.weather Sample.corrupt "invalid load key"
              eq_refl eq_refl) as (st' & Hrun & _ & Hlog).
  exists st'. auto.
Defined.

(** ** The weather service *)

Section WeatherFacts.

Import Weather.

Context `{PY : Python}.

Local Open Scope float_scope.

Lemma py_max_lower (a b : float) :
  (a <=? a) = true -> (a <=? py_max a b) = true.
Proof.
  intros Ha. unfold py_max. destruct (a <? b) eqn:E; [|exact Ha].
  now apply flt_fle.
Qed.

(** X13: [_estimate_cloud_cover] answers within [0, 100] for every pair
    of floats, infinities and [nan] included, and answers 50 without
    dividing when the clear-sky radiation is not positive. *)
Theorem estimate_cloud_cover_bounds (all_sky_radiation clear_sky_radiation
    : float) :
  in_closed 0 100
    (_estimate_cloud_cover all_sky_radiation clear_sky_radiation) = true /\
  ((clear_sky_radiation <=? 0) = true ->
   _estimate_cloud_cover all_sky_radiation clear_sky_radiation = 50).
Proof.
  unfold _estimate_cloud_cover.
  destruct (clear_sky_radiation <=? 0) eqn:E.
  - split; reflexivity.
  - split; [|discriminate].
    unfold in_closed. rewrite py_max_0_nonneg. simpl.
    unfold py_max, py_min.
    destruct ((1 - all_sky_radiation / clear_sky_radiation) * 100 <? 100)
      eqn:E1.
    + destruct (0 <? _) eqn:E2; [now apply flt_fle | reflexivity].
    + reflexivity.
Qed.

Lemma percent_in_list (n : Z) :
  (0 <= n <= 100)%Z -> In n (map Z.of_nat (seq 0 101)).
Proof.
  intros Hn. apply in_map_iff. exists (Z.to_nat n).
  split; [lia|]. apply in_seq. lia.
Qed.

(** X14: [_estimate_solar_irradiance] never answers below 1.0, whatever
    the cloud cover (1.0 for [nan]); for a cloud cover that is a whole
    percentage from 0 to 100 the floor of 1.0 is not reached and the answer
    is the formula's value, above 1.19 and at most 6.0. *)
Theorem estimate_solar_irradiance_bounds (cloud_cover : float) (n : Z) :
  (0 <= n <= 100)%Z ->
  (1 <=? estimate_solar_irradiance cloud_cover) = true /\
  estimate_solar_irradiance nan = 1 /\
  estimate_solar_irradiance (float_of_Z n)
  = 6.0 * (1 - float_of_Z n / 100 * 0.8) /\
  in_closed 1.19 6 (estimate_solar_irradiance (float_of_Z n)) = true.
Proof.
  intros Hn. split; [apply py_max_lower; reflexivity|].
  split; [reflexivity|].
  apply percent_in_list in Hn. revert n Hn.
  assert (H : forallb (fun n =>
                let e := estimate_solar_irradiance (float_of_Z n) in
                PrimFloat.Leibniz.eqb e (6.0 * (1 - float_of_Z n / 100 * 0.8))
                && in_closed 1.19 6 e)
              (map Z.of_nat (seq 0 101)) = true) by (vm_compute; reflexivity).
  rewrite forallb_forall in H. intros n Hn. specialize (H n Hn).
  cbv zeta in H. apply andb_prop in H as [H1 H2].
  split; [|exact H2]. apply FloatAxioms.Leibniz.eqb_spec. exact H1.
Qed.

Lemma make_reading_complete a b c d e src :
  complete (make_reading a b c d e src).
Proof. exists a, b, c, d, e. reflexivity. Qed.

Lemma mock_run (latitude longitude : float) (w : world) :
  exists irr t h ws cc g,
    get_mock_weather_data latitude longitude w =
    (make_reading irr (25 - PrimFloat.abs latitude * 0.5 + t) h ws cc
                  mock_data,
     {| requests_made := requests_made w; random_state := g;
        weather_log := weather_log w |}) /\
    (random_contract ->
     in_closed 3.0 7.5 irr = true /\ in_closed (-10) 15 t = true /\
     in_closed 30 80 h = true /\ in_closed 1 15 ws = true /\
     in_closed 10 70 cc = true).
Proof.
  unfold get_mock_weather_data, draw. simpl.
  pose proof (fun (Hc : random_contract) a b g (H : (a <=? b) = true) =>
                Hc a b g H) as Hc.
  repeat match goal with
  | |- context [random_uniform ?a ?b ?g] =>
      let x := fresh "x" in
      let g' := fresh "g" in
      let E := fresh "E" in
      pose proof (fun Hr => Hc Hr a b g eq_refl) as E;
      destruct (random_uniform a b g) as [x g']; simpl in *
  end.
  eexists _, _, _, _, _, _. split; [reflexivity|].
  intros Hr. repeat split; auto.
Qed.

(** X15: the mock provider sends no request and logs nothing; its reading
    is tagged [mock_data] and has all five keys, and given the contract of
    [random.uniform] the irradiance lies in [3.0, 7.5], the humidity in
    [30, 80], the wind speed in [1, 15] and the cloud cover in [10, 70]. *)
Theorem get_mock_weather_data_ranges (Hr : random_contract)
    (latitude longitude : float) (w : world) :
  let '(r, w') := get_mock_weather_data latitude longitude w in
  source r = mock_data /\
  requests_made w' = requests_made w /\
  weather_log w' = weather_log w /\
  is_Some (values r !! "temperature") /\
  (exists x, values r !! "solar_irradiance" = Some x /\
             in_closed 3.0 7.5 x = true) /\
  (exists x, values r !! "humidity" = Some x /\ in_closed 30 80 x = true) /\
  (exists x, values r !! "wind_speed" = Some x /\ in_closed 1 15 x = true) /\
  (exists x, values r !! "cloud_cover" = Some x /\ in_closed 10 70 x = true).
Proof.
  destruct (mock_run latitude longitude w)
    as (irr & t & h & ws & cc & g & Hrun & Hranges).
  rewrite Hrun. destruct (Hranges Hr) as (H1 & H2 & H3 & H4 & H5).
  repeat (split; [reflexivity|]).
  split; [eexists; reflexivity|].
  repeat split; eexists; (split; [reflexivity | assumption]).
Qed.

Lemma openweather_reading_Returned (data : ow_body) (r : reading) :
  openweather_reading data = Returned r ->
  source r = openweathermap /\ complete r.
Proof.
  unfold openweather_reading, _estimate_solar_irradiance.
  destruct (clouds_all data); [|discriminate].
  destruct (main_temp data), (main_humidity data), (wind_speed_ data);
    try discriminate.
  intros [= <-]. split; [reflexivity | apply make_reading_complete].
Qed.

Lemma nasa_reading_Some (data : nasa_body) (r : reading) :
  nasa_reading data = Some r -> source r = nasa_power /\ complete r.
Proof.
  unfold nasa_reading. intros H.
  repeat match type of H with
  | (mbind _ ?o) = Some _ =>
      let x := fresh "x" in destruct o as [x|]; simpl in H; [|discriminate]
  | (?o ≫= _) = Some _ =>
      let x := fresh "x" in destruct o as [x|]; simpl in H; [|discriminate]
  end.
  injection H as <-. split; [reflexivity | apply make_reading_complete].
Qed.

(** What [get_openweather_data] does, by key and answer. *)
Lemma get_openweather_data_cases (sv : service) (latitude longitude : float)
    (w : world) :
  (openweather_api_key sv = ""%string /\
   exists r g,
     source r = mock_data /\ complete r /\
     get_openweather_data sv latitude longitude w =
     (Returned r,
      {| requests_made := requests_made w; random_state := g;
         weather_log := weather_log w ++ [warning_no_api_key] |})) \/
  (openweather_api_key sv <> ""%string /\
   exists data,
     openweather_api sv (requests_made w) latitude longitude = Some data /\
     get_openweather_data sv latitude longitude w =
     (openweather_reading data, sent w)) \/
  (openweather_api_key sv <> ""%string /\
   openweather_api sv (requests_made w) latitude longitude = None /\
   exists r g,
     source r = mock_data /\ complete r /\
     get_openweather_data sv latitude longitude w =
     (Returned r,
      {| requests_made := S (requests_made w); random_state := g;
         weather_log := weather_log w ++ [error_openweather] |})).
Proof.
  unfold get_openweather_data.
  destruct (String.eqb_spec (openweather_api_key sv) "") as [Hk | Hk].
  - left. split; [exact Hk|].
    destruct (mock_run latitude longitude
                (log_weather warning_no_api_key w))
      as (irr & t & h & ws & cc & g & Hrun & _).
    rewrite Hrun.
    exists (make_reading irr (25 - PrimFloat.abs latitude * 0.5 + t) h ws cc
                         mock_data), g.
    split; [reflexivity|].
    split; [apply make_reading_complete | reflexivity].
  - right.
    destruct (openweather_api sv (requests_made w) latitude longitude)
      as [data|].
    + left. split; [exact Hk|]. exists data. auto.
    + right. split; [exact Hk|]. split; [reflexivity|].
      destruct (mock_run latitude longitude
                  (log_weather error_openweather (sent w)))
        as (irr & t & h & ws & cc & g & Hrun & _).
      rewrite Hrun.
      exists (make_reading irr (25 - PrimFloat.abs latitude * 0.5 + t) h ws
                           cc mock_data), g.
      split; [reflexivity|].
      split; [apply make_reading_complete | reflexivity].
Qed.

(** Every provider's reading is complete and tagged, and a call sends at
    most so many requests. *)
Lemma get_openweather_data_returns sv latitude longitude w r w' :
  get_openweather_data sv latitude longitude w = (Returned r, w') ->
  complete r /\ (source r = mock_data \/ source r = openweathermap).
Proof.
  destruct (get_openweather_data_cases sv latitude longitude w)
    as [(_ & r0 & g & Hs & Hc & H) | [(_ & data & _ & H)
       | (_ & _ & r0 & g & Hs & Hc & H)]]; rewrite H.
  - intros [= <- _]. auto.
  - intros [= Hr _]. apply openweather_reading_Returned in Hr. tauto.
  - intros [= <- _]. auto.
Qed.

Lemma get_openweather_data_requests sv latitude longitude w :
  let w' := snd (get_openweather_data sv latitude longitude w) in
  (requests_made w <= requests_made w' <= requests_made w + 1)%nat /\
  (openweather_api_key sv = ""%string -> requests_made w' = requests_made w).
Proof.
  destruct (get_openweather_data_cases sv latitude longitude w)
    as [(Hk & r0 & g & _ & _ & H) | [(Hk & data & _ & H)
       | (Hk & _ & r0 & g & _ & _ & H)]]; rewrite H; simpl;
    (split; [lia | try congruence]).
Qed.

Lemma get_nasa_power_data_returns sv latitude longitude w r w' :
  get_nasa_power_data sv latitude longitude w = (Returned r, w') ->
  complete r.
Proof.
  unfold get_nasa_power_data.
  destruct (match nasa_power_api sv (requests_made w) latitude longitude with
            | Some data => nasa_reading data
            | None => None
            end) as [r0|] eqn:E.
  - intros [= <- _].
    destruct (nasa_power_api sv (requests_made w) latitude longitude);
      [|discriminate].
    apply nasa_reading_Some in E. tauto.
  - intros H. apply get_openweather_data_returns in H. tauto.
Qed.

Lemma get_nasa_power_data_requests sv latitude longitude w :
  let w' := snd (get_nasa_power_data sv latitude longitude w) in
  (requests_made w <= requests_made w' <= requests_made w + 2)%nat /\
  (openweather_api_key sv = ""%string ->
   requests_made w' = S (requests_made w)).
Proof.
  unfold get_nasa_power_data.
  destruct (match nasa_power_api sv (requests_made w) latitude longitude with
            | Some data => nasa_reading data
            | None => None
            end) as [r0|]; simpl.
  - split; [lia | reflexivity].
  - pose proof (get_openweather_data_requests sv latitude longitude
                  (log_weather error_nasa_power (sent w))) as [H1 H2].
    simpl in H1, H2. split; [lia | auto].
Qed.

(** X16: every reading [get_weather_data] returns, from whichever provider
    and in whichever mode, has all five weather keys, so the predictor's
    input built from it uses none of the defaults. *)
Theorem get_weather_data_complete (sv : service) (latitude longitude : float)
    (src : source_arg) (w w' : world) (r : reading) :
  get_weather_data sv latitude longitude src w = (Returned r, w') ->
  exists irradiance temperature humidity wind cloud,
    values r !! "solar_irradiance" = Some irradiance /\
    values r !! "temperature" = Some temperature /\
    values r !! "humidity" = Some humidity /\
    values r !! "wind_speed" = Some wind /\
    values r !! "cloud_cover" = Some cloud /\
    forall lat lon area tilt azimuth efficiency,
      input_data lat lon area tilt azimuth efficiency (values r)
      = [lat; lon; area; tilt; azimuth; efficiency;
         irradiance; temperature; humidity; wind; cloud].
Proof.
  intros Hrun.
  assert (Hc : complete r).
  { destruct src; simpl in Hrun.
    - apply get_openweather_data_returns in Hrun. tauto.
    - eapply get_nasa_power_data_returns; eauto.
    - destruct (mock_run latitude longitude w)
        as (irr & t & h & ws & cc & g & Hm & _).
      rewrite Hm in Hrun. injection Hrun as <- _.
      apply make_reading_complete.
    - destruct (get_openweather_data sv latitude longitude w)
        as [[data|] w1] eqn:E1; [|discriminate].
      destruct (source data) eqn:Es.
      + destruct (get_nasa_power_data sv latitude longitude w1)
          as [[data2|] w2] eqn:E2; [|discriminate].
        destruct (source data2) eqn:Es2.
        * injection Hrun as <- _. eapply get_nasa_power_data_returns; eauto.
        * destruct (mock_run latitude longitude w2)
            as (irr & t & h & ws & cc & g & Hm & _).
          rewrite Hm in Hrun. injection Hrun as <- _.
          apply make_reading_complete.
        * injection Hrun as <- _. eapply get_nasa_power_data_returns; eauto.
      + injection Hrun as <- _.
        apply get_openweather_data_returns in E1. tauto.
      + injection Hrun as <- _.
        apply get_openweather_data_returns in E1. tauto. }
  destruct Hc as (a & b & c & d & e & ->).
  exists a, b, c, d, e. repeat (split; [reflexivity|]).
  intros. reflexivity.
Qed.

End WeatherFacts.

Section WeatherModes.

Import Weather.

Context `{PY : Python}.

Local Open Scope float_scope.

(** X17: in automatic mode an OpenWeatherMap reading is returned only
    from the first request: with a key configured and that request
    answered, the call is that one request and its reading (or its
    [KeyError]); and a returned reading tagged [openweathermap] can only
    have come that way, never from the retry that follows a NASA POWER
    failure. *)
Theorem get_weather_data_auto_openweather (sv : service)
    (latitude longitude : float) (w : world) :
  (forall data,
     openweather_api_key sv <> ""%string ->
     openweather_api sv (requests_made w) latitude longitude = Some data ->
     get_weather_data sv latitude longitude auto w
     = (openweather_reading data, sent w)) /\
  (forall r w',
     get_weather_data sv latitude longitude auto w = (Returned r, w') ->
     source r = openweathermap ->
     openweather_api_key sv <> ""%string /\
     exists data,
       openweather_api sv (requests_made w) latitude longitude = Some data /\
       openweather_reading data = Returned r /\ w' = sent w).
Proof.
  split.
  - intros data Hk Hapi. simpl.
    destruct (get_openweather_data_cases sv latitude longitude w)
      as [(Hk' & _) | [(_ & data' & Hapi' & H) | (_ & Hapi' & _)]];
      try congruence.
    rewrite H. assert (data' = data) as -> by congruence.
    destruct (openweather_reading data) as [r|] eqn:Er; [|reflexivity].
    apply openweather_reading_Returned in Er as [-> _]. reflexivity.
  - intros r w' Hrun Hsrc. simpl in Hrun.
    assert (Hmock : forall r0 w1,
              get_openweather_data sv latitude longitude w = (Returned r0, w1) ->
              source r0 = mock_data -> False).
    { intros r0 w1 H1 Hs0. rewrite H1, Hs0 in Hrun.
      destruct (get_nasa_power_data sv latitude longitude w1)
        as [[data2|] w2]; [|discriminate].
      destruct (source data2) eqn:Es2.
      - injection Hrun as <- _. congruence.
      - destruct (mock_run latitude longitude w2)
          as (irr & t & h & ws & cc & g & Hm & _).
        rewrite Hm in Hrun. injection Hrun as <- _. discriminate.
      - injection Hrun as <- _. congruence. }
    destruct (get_openweather_data_cases sv latitude longitude w)
      as [(_ & r0 & g & Hs0 & _ & H) | [(Hk & data & Hapi & H)
         | (_ & _ & r0 & g & Hs0 & _ & H)]].
    + exfalso. eapply Hmock; eauto.
    + split; [exact Hk|]. exists data. split; [exact Hapi|].
      rewrite H in Hrun.
      destruct (openweather_reading data) as [r1|] eqn:Er; [|discriminate].
      pose proof Er as Er'.
      apply openweather_reading_Returned in Er' as [Hs1 _].
      rewrite Hs1 in Hrun. injection Hrun as <- <-. auto.
    + exfalso. eapply Hmock; eauto.
Qed.

(** X18: one call of [get_weather_data] sends at most three HTTP requests
    whatever the mode; none in mock mode, and at most one when no
    OpenWeatherMap key is configured. *)
Theorem get_weather_data_requests (sv : service) (latitude longitude : float)
    (src : source_arg) (w : world) :
  let w' := snd (get_weather_data sv latitude longitude src w) in
  (requests_made w <= requests_made w' <= requests_made w + 3)%nat /\
  (src = mock -> requests_made w' = requests_made w) /\
  (openweather_api_key sv = ""%string ->
   (requests_made w' <= requests_made w + 1)%nat).
Proof.
  assert (Hmock : forall w0,
            requests_made (snd (get_mock_weather_data latitude longitude w0))
            = requests_made w0).
  { intros w0. destruct (mock_run latitude longitude w0)
      as (irr & t & h & ws & cc & g & Hm & _). rewrite Hm. reflexivity. }
  destruct src; simpl.
  - pose proof (get_openweather_data_requests sv latitude longitude w)
      as [H1 H2]. simpl in H1, H2.
    split; [lia|]. split; [discriminate|]. intros Hk. rewrite (H2 Hk). lia.
  - pose proof (get_nasa_power_data_requests sv latitude longitude w)
      as [H1 H2]. simpl in H1, H2.
    split; [lia|]. split; [discriminate|]. intros Hk. rewrite (H2 Hk). lia.
  - specialize (Hmock w).
    destruct (get_mock_weather_data latitude longitude w) as [r w1].
    simpl in *. split; [lia|]. split; [auto | lia].
  - pose proof (get_openweather_data_requests sv latitude longitude w)
      as [H1 H2]. simpl in H1, H2.
    destruct (get_openweather_data sv latitude longitude w)
      as [[data|] w1]; simpl in *.
    2:{ split; [lia|]. split; [discriminate|]. intros Hk.
        rewrite (H2 Hk). lia. }
    destruct (source data).
    + pose proof (get_nasa_power_data_requests sv latitude longitude w1)
        as [H3 H4]. simpl in H3, H4.
      pose proof (get_openweather_data_cases sv latitude longitude w) as Hc.
      assert (Hone : (requests_made w1 <= requests_made w + 1)%nat) by lia.
      destruct (get_nasa_power_data sv latitude longitude w1)
        as [[data2|] w2]; simpl in *.
      2:{ split; [lia|]. split; [discriminate|]. intros Hk.
          rewrite (H4 Hk), (H2 Hk). lia. }
      destruct (source data2); simpl.
      * split; [lia|]. split; [discriminate|]. intros Hk.
        rewrite (H4 Hk), (H2 Hk). lia.
      * specialize (Hmock w2).
        destruct (get_mock_weather_data latitude longitude w2) as [r w3].
        simpl in *. split; [lia|]. split; [discriminate|]. intros Hk.
        rewrite Hmock, (H4 Hk), (H2 Hk). lia.
      * split; [lia|]. split; [discriminate|]. intros Hk.
        rewrite (H4 Hk), (H2 Hk). lia.
    + simpl. split; [lia|]. split; [discriminate|]. intros Hk.
      rewrite (H2 Hk). lia.
    + simpl. split; [lia|]. split; [discriminate|]. intros Hk.
      rewrite (H2 Hk). lia.
Qed.

(** X19: automatic mode with a key, when the first OpenWeatherMap request
    fails, the NASA POWER request yields no reading and the OpenWeatherMap
    retry is answered: the answer of the retry is dropped and a mock
    reading is returned, after three requests and two logged errors. *)
Theorem get_weather_data_auto_drops_retry (sv : service)
    (latitude longitude : float) (w : world) (data : ow_body)
    (r0 : reading) :
  openweather_api_key sv <> ""%string ->
  openweather_api sv (requests_made w) latitude longitude = None ->
  nasa_answer sv (S (requests_made w)) latitude longitude = None ->
  openweather_api sv (S (S (requests_made w))) latitude longitude
  = Some data ->
  openweather_reading data = Returned r0 ->
  exists r w',
    get_weather_data sv latitude longitude auto w = (Returned r, w') /\
    source r = mock_data /\
    requests_made w' = (requests_made w + 3)%nat /\
    weather_log w' = weather_log w ++ [error_openweather; error_nasa_power].
Proof.
  intros Hk Hapi1 Hnasa Hapi3 Hr0.
  apply String.eqb_neq in Hk.
  unfold get_weather_data, get_openweather_data at 1.
  rewrite Hk, Hapi1.
  destruct (mock_run latitude longitude
              (log_weather error_openweather (sent w)))
    as (irr & t & h & ws & cc & g & Hm & _).
  rewrite Hm. simpl source. cbv iota.
  unfold get_nasa_power_data. simpl requests_made.
  unfold nasa_answer in Hnasa. rewrite Hnasa.
  unfold get_openweather_data. rewrite Hk. simpl requests_made.
  rewrite Hapi3, Hr0.
  apply openweather_reading_Returned in Hr0 as [-> _].
  match goal with |- context [get_mock_weather_data _ _ ?w0] =>
    destruct (mock_run latitude longitude w0)
      as (irr' & t' & h' & ws' & cc' & g' & Hm' & _) end.
  rewrite Hm'. eexists _, _. split; [reflexivity|]. simpl.
  split; [reflexivity|]. split; [lia|].
  rewrite <- app_assoc. reflexivity.
Qed.

End WeatherModes.

(** The reference generator honours the contract of [random.uniform]. *)
Lemma ref_random_contract : @random_contract ref_python.
Proof. exact ref_uniform_contract. Qed.

(** Witness of X14: a fully overcast sky. *)
Lemma estimate_solar_irradiance_bounds_witness :
  (0 <= 100 <= 100)%Z /\
  (1 <=? Weather.estimate_solar_irradiance 100)%float = true /\
  in_closed 1.19 6 (Weather.estimate_solar_irradiance (float_of_Z 100)) = true.
Proof.
  assert (H : (0 <= 100 <= 100)%Z) by lia.
  split; [exact H|].
  destruct (estimate_solar_irradiance_bounds 100 100 H) as (H1 & _ & _ & H2).
  auto.
Defined.

(** Witness of X15: a mock reading from the reference generator. *)
Lemma get_mock_weather_data_ranges_witness :
  @random_contract ref_python /\
  let '(r, w') :=
    Weather.get_mock_weather_data 37.7749 (-122.4194) SampleWeather.world0 in
  Weather.source r = Weather.mock_data /\
  Weather.requests_made w' = 0%nat.
Proof.
  split; [exact ref_random_contract|].
  pose proof (get_mock_weather_data_ranges ref_random_contract 37.7749
                (-122.4194) SampleWeather.world0) as H.
  destruct (Weather.get_mock_weather_data 37.7749 (-122.4194)
              SampleWeather.world0) as [r w'].
  destruct H as (H1 & H2 & _). auto.
Defined.

(** Witness of X16: OpenWeatherMap answers the first request. *)
Lemma get_weather_data_complete_witness :
  exists r,
    Weather.get_weather_data SampleWeather.openweather_up 37.7749 (-122.4194)
      Weather.auto SampleWeather.world0
    = (Weather.Returned r, Weather.sent SampleWeather.world0) /\
    is_Some (Weather.values r !! "cloud_cover").
Proof.
  assert (Hrun :
    Weather.get_weather_data SampleWeather.openweather_up 37.7749 (-122.4194)
      Weather.auto SampleWeather.world0
    = (Weather.Returned
         (Weather.make_reading 5.04 21.5 40 3.5 20 Weather.openweathermap),
       Weather.sent SampleWeather.world0)) by reflexivity.
  eexists. split; [exact Hrun|].
  destruct (get_weather_data_complete SampleWeather.openweather_up 37.7749
              (-122.4194) Weather.auto SampleWeather.world0 _ _ Hrun)
    as (a & b & c & d & e & _ & _ & _ & _ & He & _).
  rewrite He. eauto.
Defined.

(** Witness of X19: the service that fails once and then answers. *)
Lemma get_weather_data_auto_drops_retry_witness :
  exists r w',
    Weather.get_weather_data SampleWeather.flaky 37.7749 (-122.4194)
      Weather.auto SampleWeather.world0 = (Weather.Returned r, w') /\
    Weather.source r = Weather.mock_data /\
    Weather.requests_made w' = 3%nat.
Proof.
  destruct (get_weather_data_auto_drops_retry SampleWeather.flaky 37.7749
              (-122.4194) SampleWeather.world0 SampleWeather.clear_day
              (Weather.make_reading 5.04 21.5 40 3.5 20
                 Weather.openweathermap))
    as (r & w' & Hrun & Hs & Hn & _);
    [discriminate | reflexivity | reflexivity | reflexivity | reflexivity |].
  exists r, w'. auto.
Defined.

(** ** The series of the report's chart *)

Section ChartFacts.

Import Report.

Context `{PY : Python}.

Local Open Scope float_scope.

(** Whatever the hash of the label, the variation is between -10% and
    +9%. *)
Lemma variation_bounds (label : string) :
  in_closed 0.9 1.09 (variation label) = true.
Proof.
  unfold variation.
  assert (Hk : In (py_hash label mod 20 - 10)%Z
                  (map (fun i => (Z.of_nat i - 10)%Z) (seq 0 20))).
  { pose proof (Z.mod_pos_bound (py_hash label) 20 eq_refl) as Hb.
    apply in_map_iff. exists (Z.to_nat (py_hash label mod 20)).
    split; [lia|]. apply in_seq. lia. }
  revert Hk. generalize (py_hash label mod 20 - 10)%Z. intros k Hk.
  assert (H : forallb (fun k => in_closed 0.9 1.09
                                  (1 + float_of_int k / 100))
                (map (fun i => (Z.of_nat i - 10)%Z) (seq 0 20)) = true)
    by (vm_compute; reflexivity).
  rewrite forallb_forall in H. exact (H k Hk).
Qed.

(** X20: the weekly series has the seven days and the monthly series four
    weeks, as many values as labels; every value is the average (the total
    over 7, or over 4) times a factor between 0.9 and 1.09, whatever
    [hash] returns for the label. *)
Theorem time_series_variation (predicted_output : float) :
  let weekly_series := time_series weekly predicted_output in
  let monthly_series := time_series monthly predicted_output in
  fst weekly_series
  = ["Mon"; "Tue"; "Wed"; "Thu"; "Fri"; "Sat"; "Sun"]%string /\
  length (snd weekly_series) = 7%nat /\
  fst monthly_series = ["Week 1"; "Week 2"; "Week 3"; "Week 4"]%string /\
  length (snd monthly_series) = 4%nat /\
  (forall i v, snd weekly_series !! i = Some v ->
     exists factor, v = predicted_output / 7 * factor /\
                    in_closed 0.9 1.09 factor = true) /\
  (forall i v, snd monthly_series !! i = Some v ->
     exists factor, v = predicted_output / 4 * factor /\
                    in_closed 0.9 1.09 factor = true).
Proof.
  cbv zeta. unfold time_series. cbn [fst snd].
  split; [reflexivity|]. split; [reflexivity|].
  split; [reflexivity|]. split; [reflexivity|].
  split; intros i v Hi;
    (match type of Hi with (map ?f ?l) !! _ = _ =>
       change (map f l) with (f <$> l) in Hi end;
     apply list_lookup_fmap_Some in Hi as (label & -> & _);
     exists (variation label);
     (split; [reflexivity | apply variation_bounds])).
Qed.

(** X21: the daily series has the 24 hours "00:00" to "23:00" and as
    many values; the value is 0 for every hour before 6 and after 18,
    whatever the prediction is, and at noon it is the hourly average times
    [1 - (0 ** 2) * 0.8]. *)
Theorem time_series_daily (predicted_output : float) :
  let series := time_series daily predicted_output in
  length (fst series) = 24%nat /\
  length (snd series) = 24%nat /\
  fst series !! 0%nat = Some "00:00"%string /\
  fst series !! 9%nat = Some "09:00"%string /\
  fst series !! 23%nat = Some "23:00"%string /\
  (forall hour, (hour < 6 \/ 18 < hour)%nat -> (hour < 24)%nat ->
     snd series !! hour = Some 0) /\
  snd series !! 12%nat
  = Some (predicted_output / 24 * (1 - float_pow 0 2 * 0.8)).
Proof.
  cbv zeta. unfold time_series. cbn [fst snd].
  repeat (split; [reflexivity|]). split; [|reflexivity].
  intros hour Hnight Hday.
  do 24 (destruct hour as [|hour]; [try reflexivity; lia|]). lia.
Qed.

End ChartFacts.
